(** * longkai/encoding: the form binder and the request dispatcher

    A shallow embedding of package [form] (src/form/decode.go) and of package
    [reqconv] (its [Unmarshal]), together with the parts of the Go standard
    library the two packages call ([strconv], [strings.ToLower], the form
    parsing of [net/http]).

    Conventions.
    - A Go [string] is a sequence of bytes: Rocq's [string], one [ascii] per
      byte.
    - Go's [int] is taken to be 64 bits wide (as on amd64 and arm64).
    - A Go [map] is a [gmap]; the order in which [range] visits its entries is
      chosen by the runtime, and is an explicit argument of the model (a
      [Schedule]).
    - A [reflect.Value] of a struct field is a reference: its type, its
      read-only flag and the index of the slot it designates in the store of
      field values.
    - A call ends in one of three ways: it returns [nil], it returns an error,
      or it panics ([reflect] panics when asked to set an unexported
      field). *)

From Stdlib Require Import ZArith String Ascii List Lia.
From Stdlib Require Import Floats.SpecFloat.
From stdpp Require Import gmap strings list fin_maps.

Local Open Scope Z_scope.

(** ** Bytes *)

Definition code (c : ascii) : Z := Z.of_N (N_of_ascii c).

Definition byte_of (z : Z) : ascii := ascii_of_N (Z.to_N z).

(** [lower(c)] of strconv: [c | ('x' - 'X')]. *)
Definition lower (c : ascii) : Z := Z.lor (code c) 32.

Definition isDigit (c : ascii) : bool := (48 <=? code c) && (code c <=? 57).

Definition isUpper (c : ascii) : bool := (65 <=? code c) && (code c <=? 90).

(** [str] is one of the strings of [l]: a [switch] with string cases. *)
Definition oneOf (str : string) (l : list string) : bool :=
  existsb (String.eqb str) l.

(** ** Package strconv *)

Module strconv.

Inductive ErrKind : Type := ErrSyntax | ErrRange.

(** [*strconv.NumError]: the failing function, the input and the reason. *)
Record NumError : Type := { Func : string; Num : string; Err : ErrKind }.

Definition syntaxError (fn str : string) : NumError :=
  {| Func := fn; Num := str; Err := ErrSyntax |}.

Definition rangeError (fn str : string) : NumError :=
  {| Func := fn; Num := str; Err := ErrRange |}.

(** *** ParseBool *)

Definition trueSpellings : list string := ["1"; "t"; "T"; "true"; "TRUE"; "True"].
Definition falseSpellings : list string := ["0"; "f"; "F"; "false"; "FALSE"; "False"].

(** [switch str { case "1", "t", ...: return true, nil; case "0", ...: return
    false, nil }; return false, syntaxError("ParseBool", str)]. *)
Definition ParseBool (str : string) : bool * option NumError :=
  if oneOf str trueSpellings then (true, None)
  else if oneOf str falseSpellings then (false, None)
  else (false, Some (syntaxError "ParseBool" str)).

(** *** ParseUint and ParseInt, for an explicit base (2 <= base <= 36)

    The form binder calls [ParseInt(value, 10, 64)]; the branch of the
    library for [base == 0] (prefixes and underscores) is not reached. *)

Definition two64 : Z := 2 ^ 64.

(** The digit loop of [ParseUint]: [n] is the number read so far. A range
    error is reported as soon as the number overflows, before the rest of
    the string is looked at. *)
Fixpoint parseUintLoop (base maxVal cutoff : Z) (s0 s : string) (n : Z)
  : Z * option NumError :=
  match s with
  | EmptyString => (n, None)
  | String c s' =>
    let d :=
      if isDigit c then Some (code c - 48)
      else if (97 <=? lower c) && (lower c <=? 122) then Some (lower c - 97 + 10)
      else None in
    match d with
    | None => (0, Some (syntaxError "ParseUint" s0))
    | Some d =>
      if base <=? d then (0, Some (syntaxError "ParseUint" s0))
      else if cutoff <=? n then (maxVal, Some (rangeError "ParseUint" s0))
      else
        let n := n * base in
        let n1 := (n + d) mod two64 in
        if (n1 <? n) || (maxVal <? n1) then (maxVal, Some (rangeError "ParseUint" s0))
        else parseUintLoop base maxVal cutoff s0 s' n1
    end
  end.

Definition ParseUint (s : string) (base bitSize : Z) : Z * option NumError :=
  match s with
  | EmptyString => (0, Some (syntaxError "ParseUint" s))
  | _ =>
    let cutoff := (two64 - 1) / base + 1 in
    let maxVal := 2 ^ bitSize - 1 in
    parseUintLoop base maxVal cutoff s s 0
  end.

Definition ParseInt (s : string) (base bitSize : Z) : Z * option NumError :=
  match s with
  | EmptyString => (0, Some (syntaxError "ParseInt" s))
  | String c s' =>
    let s0 := s in
    let '(neg, s) :=
      if code c =? 43 then (false, s')
      else if code c =? 45 then (true, s')
      else (false, s) in
    let '(un, err) := ParseUint s base bitSize in
    let notRange :=
      match err with
      | Some e => match Err e with ErrRange => false | ErrSyntax => true end
      | None => false
      end in
    if notRange then (0, Some (syntaxError "ParseInt" s0))
    else
      let cutoff := 2 ^ (bitSize - 1) in
      if negb neg && (cutoff <=? un) then (cutoff - 1, Some (rangeError "ParseInt" s0))
      else if neg && (cutoff <? un) then (- cutoff, Some (rangeError "ParseInt" s0))
      else ((if neg then - un else un), None)
  end.

(** *** ParseFloat, for [bitSize = 64]

    A [float64] is a binary64 datum of IEEE 754: [spec_float] at precision 53
    and maximal exponent 1024. The syntax is read as [readFloat] reads it;
    the digits are kept exactly (the library keeps 19 of them and a [trunc]
    flag, and falls back to multi-precision decimals), and the value is the
    nearest float, ties to even, which is the library's contract. *)

Definition float64 : Type := spec_float.
Definition prec : Z := 53.
Definition emax : Z := 1024.

Fixpoint commonPrefixLenIgnoreCase (s prefix : string) : Z :=
  match s, prefix with
  | String c s', String p prefix' =>
    let c := if isUpper c then code c + 32 else code c in
    if c =? code p then 1 + commonPrefixLenIgnoreCase s' prefix' else 0
  | _, _ => 0
  end.

(** [special]: the (possibly signed) infinities and [NaN], with the number of
    bytes read. *)
Definition special (s : string) : option (float64 * Z) :=
  let infinity (sign : bool) (nsign : Z) (s : string) :=
    let n := commonPrefixLenIgnoreCase s "infinity" in
    let n := if (3 <? n) && (n <? 8) then 3 else n in
    if (n =? 3) || (n =? 8) then Some (S754_infinity sign, nsign + n) else None in
  match s with
  | EmptyString => None
  | String c s' =>
    if code c =? 43 then infinity false 1 s'
    else if code c =? 45 then infinity true 1 s'
    else if (code c =? 105) || (code c =? 73) then infinity false 0 s
    else if (code c =? 110) || (code c =? 78) then
      if commonPrefixLenIgnoreCase s "nan" =? 3 then Some (S754_nan, 3) else None
    else None
  end.

Inductive saw : Type := SawStart | SawDigit | SawUnderscore | SawOther.

Fixpoint underscoreLoop (hex : bool) (last : saw) (s : string) : bool :=
  match s with
  | EmptyString => match last with SawUnderscore => false | _ => true end
  | String c s' =>
    if isDigit c || (hex && (97 <=? lower c) && (lower c <=? 102))
    then underscoreLoop hex SawDigit s'
    else if code c =? 95 then
      match last with SawDigit => underscoreLoop hex SawUnderscore s' | _ => false end
    else
      match last with SawUnderscore => false | _ => underscoreLoop hex SawOther s' end
  end.

(** [underscoreOK]: underscores stand only between digits, or between a base
    prefix and a digit. *)
Definition underscoreOK (s : string) : bool :=
  let s :=
    match s with
    | String c s' => if (code c =? 45) || (code c =? 43) then s' else s
    | EmptyString => s
    end in
  match s with
  | String c0 (String c1 s') =>
    if (code c0 =? 48) && ((lower c1 =? 98) || (lower c1 =? 111) || (lower c1 =? 120))
    then underscoreLoop (lower c1 =? 120) SawDigit s'
    else underscoreLoop false SawStart s
  | _ => underscoreLoop false SawStart s
  end.

Record mantissaState : Type := {
  sawdot : bool; sawdigits : bool; nd : Z; dp : Z; mantissa : Z; underscores : bool }.

(** The digit loop of [readFloat]; the unread rest of the string is returned. *)
Fixpoint readMantissa (base : Z) (st : mantissaState) (s : string)
  : mantissaState * string :=
  match s with
  | EmptyString => (st, s)
  | String c s' =>
    if code c =? 95 then
      readMantissa base
        {| sawdot := sawdot st; sawdigits := sawdigits st; nd := nd st; dp := dp st;
           mantissa := mantissa st; underscores := true |} s'
    else if code c =? 46 then
      if sawdot st then (st, s)
      else readMantissa base
        {| sawdot := true; sawdigits := sawdigits st; nd := nd st; dp := nd st;
           mantissa := mantissa st; underscores := underscores st |} s'
    else if isDigit c then
      if (code c =? 48) && (nd st =? 0) then
        readMantissa base
          {| sawdot := sawdot st; sawdigits := true; nd := nd st; dp := dp st - 1;
             mantissa := mantissa st; underscores := underscores st |} s'
      else
        readMantissa base
          {| sawdot := sawdot st; sawdigits := true; nd := nd st + 1; dp := dp st;
             mantissa := mantissa st * base + (code c - 48);
             underscores := underscores st |} s'
    else if (base =? 16) && (97 <=? lower c) && (lower c <=? 102) then
      readMantissa base
        {| sawdot := sawdot st; sawdigits := true; nd := nd st + 1; dp := dp st;
           mantissa := mantissa st * 16 + (lower c - 97 + 10);
           underscores := underscores st |} s'
    else (st, s)
  end.

(** The digits of the exponent: [if e < 10000 { e = e*10 + int(s[i]) - '0' }]. *)
Fixpoint readExponent (e : Z) (under : bool) (s : string) : Z * bool * string :=
  match s with
  | EmptyString => (e, under, s)
  | String c s' =>
    if code c =? 95 then readExponent e true s'
    else if isDigit c
    then readExponent (if e <? 10000 then e * 10 + (code c - 48) else e) under s'
    else (e, under, s)
  end.

(** What [readFloat] returns when [ok]: the number is
    [mantissa * 10^exp], or [mantissa * 2^exp] when [hex]. *)
Record floatLit : Type := {
  lit_mantissa : Z; lit_exp : Z; lit_neg : bool; lit_hex : bool; lit_rest : string }.

Definition consumed (s rest : string) : string :=
  substring 0 (String.length s - String.length rest) s.

Definition readFloat (s : string) : option floatLit :=
  match s with
  | EmptyString => None
  | String c s1 =>
    let '(neg, s1) :=
      if code c =? 43 then (false, s1)
      else if code c =? 45 then (true, s1)
      else (false, s) in
    let '(base, s2) :=
      match s1 with
      | String c0 (String c1 (String c2 s3)) =>
        if (code c0 =? 48) && (lower c1 =? 120) then (16, String c2 s3) else (10, s1)
      | _ => (10, s1)
      end in
    let '(st, s3) :=
      readMantissa base
        {| sawdot := false; sawdigits := false; nd := 0; dp := 0; mantissa := 0;
           underscores := false |} s2 in
    if negb (sawdigits st) then None
    else
      let dp := if sawdot st then dp st else nd st in
      let '(dp, ndMant) := if base =? 16 then (dp * 4, nd st * 4) else (dp, nd st) in
      let expChar := if base =? 16 then 112 else 101 in
      let noExponent :=
        if base =? 16 then None else Some (dp, underscores st, s3) in
      let exponent :=
        match s3 with
        | String c s4 =>
          if lower c =? expChar then
            match s4 with
            | EmptyString => None
            | String c' s5 =>
              let '(esign, s6) :=
                if code c' =? 43 then (1, s5)
                else if code c' =? 45 then (-1, s5)
                else (1, s4) in
              match s6 with
              | String c'' _ =>
                if isDigit c'' then
                  let '(e, under, s7) := readExponent 0 (underscores st) s6 in
                  Some (dp + e * esign, under, s7)
                else None
              | EmptyString => None
              end
            end
          else noExponent
        | EmptyString => noExponent
        end in
      match exponent with
      | None => None
      | Some (dp, under, rest) =>
        if under && negb (underscoreOK (consumed s rest)) then None
        else
          Some {| lit_mantissa := mantissa st;
                  lit_exp := if mantissa st =? 0 then 0 else dp - ndMant;
                  lit_neg := neg; lit_hex := (base =? 16); lit_rest := rest |}
      end
  end.

(** The float nearest to [+-m * 10^e]. *)
Definition decimalToFloat (neg : bool) (m e : Z) : float64 :=
  match m with
  | Zpos p =>
    if 0 <=? e
    then binary_normalize prec emax (if neg then - (m * 10 ^ e) else m * 10 ^ e) 0 false
    else SFdiv prec emax (S754_finite neg p 0)
                         (S754_finite false (Z.to_pos (10 ^ (- e))) 0)
  | _ => S754_zero neg
  end.

(** The float nearest to [+-m * 2^e]. *)
Definition hexToFloat (neg : bool) (m e : Z) : float64 :=
  match m with
  | Zpos p => binary_normalize prec emax (if neg then Zneg p else Zpos p) e false
  | _ => S754_zero neg
  end.

(** [ParseFloat(s, 64)]. A number too large for a float64 is returned as an
    infinity with a range error. *)
Definition ParseFloat (s : string) : float64 * option NumError :=
  match special s with
  | Some (val, n) =>
    if n =? Z.of_nat (String.length s) then (val, None)
    else (S754_zero false, Some (syntaxError "ParseFloat" s))
  | None =>
    match readFloat s with
    | None => (S754_zero false, Some (syntaxError "ParseFloat" s))
    | Some lit =>
      match lit_rest lit with
      | EmptyString =>
        let f :=
          if lit_hex lit
          then hexToFloat (lit_neg lit) (lit_mantissa lit) (lit_exp lit)
          else decimalToFloat (lit_neg lit) (lit_mantissa lit) (lit_exp lit) in
        match f with
        | S754_infinity _ => (f, Some (rangeError "ParseFloat" s))
        | _ => (f, None)
        end
      | String _ _ => (S754_zero false, Some (syntaxError "ParseFloat" s))
      end
    end
  end.

End strconv.

(** ** Package reflect: kinds, types, struct fields *)

(** [reflect.Kind]. *)
Module reflect.

Inductive Kind : Type :=
| Invalid | Bool | Int | Int8 | Int16 | Int32 | Int64
| Uint | Uint8 | Uint16 | Uint32 | Uint64 | Uintptr
| Float32 | Float64 | Complex64 | Complex128
| Array | Chan | Func | Interface | Map | Pointer | Slice | String | Struct
| UnsafePointer.

End reflect.

(** The predeclared types. *)
Inductive basic : Type :=
| Tbool | Tint | Tint8 | Tint16 | Tint32 | Tint64
| Tuint | Tuint8 | Tuint16 | Tuint32 | Tuint64 | Tuintptr
| Tfloat32 | Tfloat64 | Tcomplex64 | Tcomplex128 | Tstring.

(** Go types. A struct, function or interface type is given by its name
    only; [Defined] is a type declaration [type name underlying]. *)
Inductive type : Type :=
| Basic (b : basic)
| SliceOf (elem : type)
| ArrayOf (len : Z) (elem : type)
| PointerTo (elem : type)
| MapOf (key elem : type)
| ChanOf (elem : type)
| StructType (name : string)
| FuncType (name : string)
| InterfaceType (name : string)
| UnsafePointerType
| Defined (name : string) (underlying : type).

#[global] Instance basic_eq_dec : EqDecision basic.
Proof. solve_decision. Defined.

#[global] Instance type_eq_dec : EqDecision type.
Proof. solve_decision. Defined.

Definition kindOfBasic (b : basic) : reflect.Kind :=
  match b with
  | Tbool => reflect.Bool | Tint => reflect.Int | Tint8 => reflect.Int8
  | Tint16 => reflect.Int16 | Tint32 => reflect.Int32 | Tint64 => reflect.Int64
  | Tuint => reflect.Uint | Tuint8 => reflect.Uint8 | Tuint16 => reflect.Uint16
  | Tuint32 => reflect.Uint32 | Tuint64 => reflect.Uint64
  | Tuintptr => reflect.Uintptr
  | Tfloat32 => reflect.Float32 | Tfloat64 => reflect.Float64
  | Tcomplex64 => reflect.Complex64 | Tcomplex128 => reflect.Complex128
  | Tstring => reflect.String
  end.

(** [t.Kind()]: the kind of a defined type is that of its underlying type. *)
Fixpoint kindOf (t : type) : reflect.Kind :=
  match t with
  | Basic b => kindOfBasic b
  | SliceOf _ => reflect.Slice
  | ArrayOf _ _ => reflect.Array
  | PointerTo _ => reflect.Pointer
  | MapOf _ _ => reflect.Map
  | ChanOf _ => reflect.Chan
  | StructType _ => reflect.Struct
  | FuncType _ => reflect.Func
  | InterfaceType _ => reflect.Interface
  | UnsafePointerType => reflect.UnsafePointer
  | Defined _ u => kindOf u
  end.

(** [t.Elem()]; it panics ([None]) on a type that has no element type. *)
Fixpoint Elem (t : type) : option type :=
  match t with
  | SliceOf e | ArrayOf _ e | PointerTo e | MapOf _ e | ChanOf e => Some e
  | Defined _ u => Elem u
  | _ => None
  end.

(** [reflect.StructTag], in its conventional form: a list of [key:"value"]
    pairs. [Get] returns the value of the first pair with the key, and the
    empty string when there is none. *)
Definition StructTag : Type := list (string * string).

Fixpoint Get (tag : StructTag) (key : string) : string :=
  match tag with
  | [] => ""
  | (k, v) :: tag' => if String.eqb k key then v else Get tag' key
  end.

(** [reflect.StructField]. [PkgPath] is empty for an exported field. *)
Record StructField : Type := {
  Name : string;
  PkgPath : string;
  Type_ : type;
  Tag : StructTag }.

(** The [reflect.Value] of a struct field: the field's type, whether it can
    be set, and the slot of the store it designates. *)
Record Value : Type := { typ : type; canSet : bool; slot : nat }.

(** [v.Field(i)], for [v] the addressable struct behind the pointer. *)
Definition Field (i : nat) (f : StructField) : Value :=
  {| typ := Type_ f; canSet := String.eqb (PkgPath f) ""; slot := i |}.

(** ** Data of the binder *)

(** [multipart.FileHeader]: the handle of an uploaded file. *)
Record FileHeader : Type := { Filename : string; Size : Z }.

(** What a field holds. [VOpaque] stands for a datum of a type the binder
    never writes. *)
#[warnings="-register-all"]
Inductive val : Type :=
| VBool (b : bool)
| VInt (i : Z)
| VFloat (f : strconv.float64)
| VString (s : string)
| VSlice (elems : list val)
| VFileHeader (p : option FileHeader)
| VOpaque (id : nat).

(** Errors. [Errorf format args] is the error [fmt.Errorf(format, args...)]
    builds; [External] is an error of a collaborator ([net/http], [mime],
    [encoding/json], [encoding/xml]). *)
#[warnings="-register-all"]
Inductive error : Type :=
| NumErr (e : strconv.NumError)
| Errorf (format : string) (args : list arg)
| External (msg : string)
with arg : Type :=
| AString (s : string)
| AType (t : type)
| AKind (k : reflect.Kind)
| AError (e : error).

(** How a call ends: it returns (with a result), it returns an error, or it
    panics. *)
Inductive outcome (A : Type) : Type :=
| Done (a : A)
| Failed (e : error)
| Panicked.
Arguments Done {A} a.
Arguments Failed {A} e.
Arguments Panicked {A}.

(** A function that returns only an [error]: [ok] is [nil]. *)
Abbreviation result := (outcome unit).
Definition ok : result := Done tt.

(** [url.Values] and the file parts of a multipart form. *)
Abbreviation Values := (gmap string (list string)).
Abbreviation Files := (gmap string (list FileHeader)).

(** The order in which [range] visits the entries of a map: some
    enumeration of them, picked by the runtime. A call of the binder ranges
    over each of its maps once, so that a choice per map covers every run. *)
Record Schedule : Type := {
  range : forall A : Type, gmap string A -> list (string * A);
  range_perm : forall (A : Type) (m : gmap string A), range A m ≡ₚ map_to_list m }.
Arguments range _ {A} _.

(** The slots of the destination struct: one datum per field. *)
Abbreviation store := (list val).

(** The elements of the slice held in a slot (a nil slice has none). *)
Definition sliceElems (v : option val) : list val :=
  match v with
  | Some (VSlice l) => l
  | _ => []
  end.

(** ** Package net/http: the request as the binder sees it

    The request is given by what its accessors and parsers yield: the
    method, the Content-Type header, the values of the URL query, the values
    of a URL-encoded body, the values and file parts of a multipart body, and
    the bytes of the body. *)

Module http.

Record Request : Type := {
  Method : string;
  (** [r.Header.Get("Content-Type")], empty when the header is absent *)
  ContentType : string;
  (** [url.ParseQuery(r.URL.RawQuery)]: what [r.URL.Query()] returns, and
      the error [ParseForm] reports for the query *)
  URLQuery : Values;
  URLQueryErr : option error;
  (** [parsePostForm(r)]: the values of a URL-encoded body *)
  PostBody : Values;
  PostBodyErr : option error;
  (** [r.multipartReader] then [ReadForm(maxMemory)]: the values and the file
      parts of a multipart body *)
  MultipartBody : Z -> (Values * Files) + error;
  (** [ioutil.ReadAll(r.Body)] *)
  Body : string + error }.

Definition MethodGet : string := "GET".
Definition MethodHead : string := "HEAD".
Definition MethodPost : string := "POST".
Definition MethodPut : string := "PUT".
Definition MethodPatch : string := "PATCH".
Definition MethodDelete : string := "DELETE".
Definition MethodTrace : string := "TRACE".

(** [copyValues(dst, src)]: every value of [src] is added to [dst] under its
    key, after the values [dst] has for it. *)
Definition copyValues (dst src : Values) : Values :=
  union_with (fun a b => Some (a ++ b)) dst src.

(** The fields of the request the parsers fill in. *)
Record Parsed : Type := {
  PostForm : Values;
  Form : Values;
  MultipartForm : option Files }.

(** [r.ParseForm()] on a request not parsed before: the body is read for
    POST, PUT and PATCH only; [r.Form] holds the body's values, then the
    query's. *)
Definition ParseForm (r : Request) : Parsed * option error :=
  let '(postForm, err) :=
    if oneOf (Method r) [MethodPost; MethodPut; MethodPatch]
    then (PostBody r, PostBodyErr r)
    else (∅, None) in
  let form := copyValues (copyValues ∅ postForm) (URLQuery r) in
  let err := match err with Some _ => err | None => URLQueryErr r end in
  ({| PostForm := postForm; Form := form; MultipartForm := None |}, err).

(** [r.ParseMultipartForm(maxMemory)]: [ParseForm], then the values of the
    multipart body are appended to [r.Form] and [r.PostForm]. *)
Definition ParseMultipartForm (r : Request) (maxMemory : Z) : Parsed * option error :=
  let '(p, parseFormErr) := ParseForm r in
  match MultipartBody r maxMemory with
  | inr err => (p, Some err)
  | inl (vals, files) =>
    ({| PostForm := copyValues (PostForm p) vals;
        Form := copyValues (Form p) vals;
        MultipartForm := Some files |}, parseFormErr)
  end.

End http.

Import http.

(** ** Package form (src/form/decode.go) *)

Module form.

(** [type Option int]. *)
Definition Option : Type := Z.
Definition Body : Option := 0.
Definition Query : Option := 1.
Definition Multipart : Option := 2.
Definition Mixed : Option := 3.
Definition MixedMultipart : Option := 4.

(** [var MultipartMaxMemory int64 = 10 * 1024]. *)
Definition MultipartMaxMemory : Z := 10 * 1024.

(** [var FieldTag = "json"]. *)
Definition FieldTag : string := "json".

(** The two package variables, as a call finds them. *)
Record Vars : Type := { maxMemory : Z; fieldTag : string }.

Definition initialVars : Vars :=
  {| maxMemory := MultipartMaxMemory; fieldTag := FieldTag |}.

(** [fileHeaderPtrType]: [*multipart.FileHeader]. *)
Definition fileHeaderPtrType : type := PointerTo (StructType "multipart.FileHeader").

(** [populate(v, value)]; [v] is given by its type and by whether it can be
    set, and the result is the datum [v] holds afterwards. *)
Definition populate (t : type) (settable : bool) (value : string) : outcome val :=
  match kindOf t with
  | reflect.String =>
    if settable then Done (VString value) else Panicked
  | reflect.Int =>
    let '(i, err) := strconv.ParseInt value 10 64 in
    match err with
    | Some e => Failed (NumErr e)
    | None => if settable then Done (VInt i) else Panicked
    end
  | reflect.Bool =>
    let '(b, err) := strconv.ParseBool value in
    match err with
    | Some e => Failed (NumErr e)
    | None => if settable then Done (VBool b) else Panicked
    end
  | reflect.Float64 =>
    let '(f, err) := strconv.ParseFloat value in
    match err with
    | Some e => Failed (NumErr e)
    | None => if settable then Done (VFloat f) else Panicked
    end
  | _ => Failed (Errorf "unsupported kind %s" [AType t])
  end.

(** [populatePart(v, part)]. *)
Definition populatePart (t : type) (settable : bool) (part : FileHeader) : outcome val :=
  if bool_decide (fileHeaderPtrType = t)
  then if settable then Done (VFileHeader (Some part)) else Panicked
  else Failed (Errorf "unsupported multipart kind %s" [AKind (kindOf t)]).

(** The body of the loops of [unpack] and [unpackMultipart] over the values
    of one name: [coerce] is [populate] or [populatePart]. *)
Fixpoint bindAll {A : Type} (coerce : type -> bool -> A -> outcome val)
    (name : string) (f : Value) (values : list A) (st : store) : store * result :=
  match values with
  | [] => (st, ok)
  | value :: values' =>
    match kindOf (typ f) with
    | reflect.Slice =>
      match Elem (typ f) with
      | None => (st, Panicked)
      | Some et =>
        (* elem := reflect.New(f.Type().Elem()).Elem() *)
        match coerce et true value with
        | Failed err => (st, Failed (Errorf "%s: %v" [AString name; AError err]))
        | Panicked => (st, Panicked)
        | Done elem =>
          (* f.Set(reflect.Append(f, elem)) *)
          if canSet f
          then bindAll coerce name f values'
                 (<[slot f := VSlice (sliceElems (st !! slot f) ++ [elem])]> st)
          else (st, Panicked)
        end
      end
    | _ =>
      match coerce (typ f) (canSet f) value with
      | Failed err => (st, Failed (Errorf "%s: %v" [AString name; AError err]))
      | Panicked => (st, Panicked)
      | Done x => bindAll coerce name f values' (<[slot f := x]> st)
      end
    end
  end.

(** The loop over the entries of the map, in the order they are visited. *)
Fixpoint bindEntries {A : Type} (coerce : type -> bool -> A -> outcome val)
    (fields : gmap string Value) (entries : list (string * list A)) (st : store)
  : store * result :=
  match entries with
  | [] => (st, ok)
  | (name, values) :: entries' =>
    match fields !! name with
    | None => bindEntries coerce fields entries' st  (* !f.IsValid(): continue *)
    | Some f =>
      match bindAll coerce name f values st with
      | (st', Done _) => bindEntries coerce fields entries' st'
      | stop => stop
      end
    end
  end.

(** [unpack(fields, form)]. *)
Definition unpack (sched : Schedule) (fields : gmap string Value) (form : Values)
    (st : store) : store * result :=
  bindEntries populate fields (range sched form) st.

(** [unpackMultipart(fields, m)]. *)
Definition unpackMultipart (sched : Schedule) (fields : gmap string Value) (m : Files)
    (st : store) : store * result :=
  bindEntries populatePart fields (range sched m) st.

(** [strings.ToLower] of the one-byte string [c]: an ASCII capital is
    lower-cased, any other ASCII byte is kept; a byte that is not ASCII is
    not valid UTF-8 on its own, and comes out as U+FFFD (EF BF BD) since
    Go 1.12 (earlier versions returned it as it was). *)
Definition ToLowerByte (c : ascii) : string :=
  if code c <? 128
  then String (if isUpper c then byte_of (code c + 32) else c) EmptyString
  else String (byte_of 239) (String (byte_of 191) (String (byte_of 189) EmptyString)).

(** The effective name of a field: the value of its tag under the tag key,
    or else [strings.ToLower(Name[:1]) + Name[1:]]. *)
Definition fieldName (tagKey : string) (f : StructField) : string :=
  let name := Get (Tag f) tagKey in
  if String.eqb name "" then
    match Name f with
    | EmptyString => name
    | String c rest => ToLowerByte c +:+ rest
    end
  else name.

(** The map of fields keyed by effective name; a later field replaces an
    earlier one of the same name. *)
Fixpoint buildFieldsFrom (tagKey : string) (i : nat) (sf : list StructField)
    (fields : gmap string Value) : gmap string Value :=
  match sf with
  | [] => fields
  | f :: sf' => buildFieldsFrom tagKey (S i) sf' (<[fieldName tagKey f := Field i f]> fields)
  end.

Definition buildFields (tagKey : string) (sf : list StructField) : gmap string Value :=
  buildFieldsFrom tagKey 0 sf ∅.

(** [UnpackWithOption(r, ptr, option)]: [ptr] points to a struct with the
    fields [sf], whose data are [st]. *)
Definition UnpackWithOption (sched : Schedule) (vars : Vars) (r : Request)
    (sf : list StructField) (st : store) (option : Option) : store * result :=
  let '(p, err) :=
    if (option =? Multipart) || (option =? MixedMultipart)
    then ParseMultipartForm r (maxMemory vars)
    else ParseForm r in
  match err with
  | Some e => (st, Failed e)
  | None =>
    let fields := buildFields (fieldTag vars) sf in
    let thenMultipart (res : store * result) : store * result :=
      match res with
      | (st', Done _) =>
        match MultipartForm p with
        | Some files => unpackMultipart sched fields files st'
        | None => (st', Panicked)
        end
      | stop => stop
      end in
    if option =? Query then unpack sched fields (URLQuery r) st
    else if option =? Mixed then unpack sched fields (Form p) st
    else if option =? Multipart then thenMultipart (unpack sched fields (PostForm p) st)
    else if option =? MixedMultipart then thenMultipart (unpack sched fields (Form p) st)
    else unpack sched fields (PostForm p) st
  end.

(** [Unpack(r, ptr)]. *)
Definition Unpack (sched : Schedule) (vars : Vars) (r : Request)
    (sf : list StructField) (st : store) : store * result :=
  UnpackWithOption sched vars r sf st Body.

End form.

(** ** Package reqconv: [Unmarshal] *)

Module reqconv.

(** The decoders of the standard library [Unmarshal] hands the request to:
    [mime.ParseMediaType] (the media type and the error; the parameters are
    dropped by the caller), [json.Unmarshal] and [xml.Unmarshal] (the bytes,
    the destination and its data; the data afterwards and the error). *)
Record Decoders : Type := {
  ParseMediaType : string -> string * option error;
  jsonUnmarshal : string -> list StructField -> store -> store * option error;
  xmlUnmarshal : string -> list StructField -> store -> store * option error }.

(** [unmarshal(r, ptr, unmarshaler)]: the whole body is read, then decoded. *)
Definition unmarshal (r : Request) (sf : list StructField) (st : store)
    (unmarshaler : string -> list StructField -> store -> store * option error)
  : store * result :=
  match Body r with
  | inr err => (st, Failed err)
  | inl b =>
    match unmarshaler b sf st with
    | (st', Some err) => (st', Failed err)
    | (st', None) => (st', ok)
    end
  end.

(** The methods that carry no body. *)
Definition noBodyMethods : list string :=
  [MethodGet; MethodDelete; MethodHead; MethodTrace].

(** [ct := r.Header.Get("Content-Type"); if ct == "" { ct =
    "application/octet-stream" }]. *)
Definition declaredType (r : Request) : string :=
  if String.eqb (ContentType r) "" then "application/octet-stream" else ContentType r.

(** [Unmarshal(r, ptr)]. *)
Definition Unmarshal (sched : Schedule) (vars : form.Vars) (dec : Decoders)
    (r : Request) (sf : list StructField) (st : store) : store * result :=
  if oneOf (Method r) noBodyMethods
  then form.UnpackWithOption sched vars r sf st form.Query
  else
    let ct := declaredType r in
    let '(mediaType, err) := ParseMediaType dec ct in
    match err with
    | Some e => (st, Failed (Errorf "parse request media type: %v" [AError e]))
    | None =>
      let wrap (res : store * result) : store * result :=
        match res with
        | (st', Failed e) =>
          (st', Failed (Errorf "parse request body as %s: %v" [AString mediaType; AError e]))
        | other => other
        end in
      if String.eqb mediaType "application/json"
      then wrap (unmarshal r sf st (jsonUnmarshal dec))
      else if String.eqb mediaType "application/xml"
      then wrap (unmarshal r sf st (xmlUnmarshal dec))
      else if String.eqb mediaType "multipart/form-data"
      then wrap (form.UnpackWithOption sched vars r sf st form.Multipart)
      else if String.eqb mediaType "application/x-www-form-urlencoded"
      then wrap (form.UnpackWithOption sched vars r sf st form.Body)
      else (st, Failed (Errorf "unsupported content type: %s" [AString ct]))
    end.

End reqconv.

(** ** Two schedules, to run the model *)

(** Visit the entries as [map_to_list] lists them. *)
Definition ascending : Schedule :=
  {| range := fun A m => map_to_list m;
     range_perm := fun A m => reflexivity (map_to_list m) |}.

(** Visit them the other way round. *)
Definition descending : Schedule :=
  {| range := fun A m => reverse (map_to_list m);
     range_perm := fun A m => reverse_Permutation (map_to_list m) |}.

(** ** Sample data: the structs of the tests and small requests *)

Module sample.

Definition field (name : string) (t : type) (tag : StructTag) : StructField :=
  {| Name := name; PkgPath := ""; Type_ := t; Tag := tag |}.

(** [Params] of decode_test.go. *)
Definition Params : list StructField :=
  [ field "Q" (Basic Tstring) [("json", "q")];
    field "Int" (Basic Tint) [("json", "int")];
    field "Float" (Basic Tfloat64) [("json", "float")];
    field "Bool" (Basic Tbool) [("json", "bool")];
    field "Array" (SliceOf (Basic Tint)) [("json", "array")];
    field "Default" (Basic Tstring) [("json", "default")] ].

(** [Params{Default: "2333"}]. *)
Definition withDefault : store :=
  [ VString ""; VInt 0; VFloat (S754_zero false); VBool false; VSlice [];
    VString "2333" ].

(** A struct [{ A string; B int }] without tags, holding ["old"] and [7]. *)
Definition AB : list StructField :=
  [ field "A" (Basic Tstring) []; field "B" (Basic Tint) [] ].

Definition oldAB : store := [ VString "old"; VInt 7 ].

(** A request with the given method, query and URL-encoded body. *)
Definition request (method : string) (query body : list (string * list string))
  : Request :=
  {| Method := method;
     ContentType := "application/x-www-form-urlencoded";
     URLQuery := list_to_map query; URLQueryErr := None;
     PostBody := list_to_map body; PostBodyErr := None;
     MultipartBody := fun _ => inr (External "request Content-Type isn't multipart/form-data");
     Body := inl "" |}.

(** Stand-ins for the decoders of the standard library, enough to run
    [Unmarshal]: the header value is taken as the media type (it carries no
    parameters in the samples), and the structured decoders bind nothing. *)
Definition decoders : reqconv.Decoders :=
  {| reqconv.ParseMediaType := fun v => (v, None);
     reqconv.jsonUnmarshal := fun _ _ st => (st, None);
     reqconv.xmlUnmarshal := fun _ _ st => (st, None) |}.

(** A field [Éa string] without a tag: the identifier is the bytes C3 89 61. *)
Definition accented : StructField :=
  field (String (byte_of 195) (String (byte_of 137) "a")) (Basic Tstring) [].

(** A multipart request: the values of the query, and the values and the
    file parts of the body. *)
Definition upload (query body : list (string * list string))
    (files : list (string * list FileHeader)) : Request :=
  {| Method := "POST";
     ContentType := "multipart/form-data; boundary=----WebKitFormBoundarykhWusB7Rx4ybHQtA";
     URLQuery := list_to_map query; URLQueryErr := None;
     PostBody := ∅; PostBodyErr := None;
     MultipartBody := fun _ => inl (list_to_map body, list_to_map files);
     Body := inl "" |}.

End sample.

(** ** Words of the claims *)

(** ASCII lower case of a byte and of a string. *)
Definition lowerByte (c : ascii) : ascii :=
  if isUpper c then byte_of (code c + 32) else c.

Fixpoint lowerASCII (s : string) : string :=
  match s with
  | EmptyString => EmptyString
  | String c s' => String (lowerByte c) (lowerASCII s')
  end.

(** The kinds [populate] has a case for. *)
Definition coercibleKinds : list reflect.Kind :=
  [reflect.String; reflect.Int; reflect.Bool; reflect.Float64].

(** The kinds of the integer types other than [int]. *)
Definition otherIntegerKinds : list reflect.Kind :=
  [reflect.Int8; reflect.Int16; reflect.Int32; reflect.Int64;
   reflect.Uint; reflect.Uint8; reflect.Uint16; reflect.Uint32; reflect.Uint64;
   reflect.Uintptr].

(** The media types [Unmarshal] has a case for. *)
Definition recognizedTypes : list string :=
  ["application/json"; "application/xml"; "multipart/form-data";
   "application/x-www-form-urlencoded"].

(** ** Words of the further properties *)

(** What the loop over the values of a name asks of [coerce] for a value:
    the element type of a slice field (a fresh element can be set), the
    field itself otherwise. *)
Definition coerceFor {A : Type} (coerce : type -> bool -> A -> outcome val)
    (f : Value) (value : A) : outcome val :=
  match kindOf (typ f), Elem (typ f) with
  | reflect.Slice, Some et => coerce et true value
  | reflect.Slice, None => Panicked
  | _, _ => coerce (typ f) (canSet f) value
  end.

(** A field of text: exported, and a string or a slice of strings. *)
Definition textField (f : StructField) : Prop :=
  PkgPath f = ""
  /\ (kindOf (Type_ f) = reflect.String
      \/ exists et, kindOf (Type_ f) = reflect.Slice /\ Elem (Type_ f) = Some et
                    /\ kindOf et = reflect.String).

(** A type that takes file parts: [*multipart.FileHeader], or a slice of it. *)
Definition fileType (t : type) : Prop :=
  t = form.fileHeaderPtrType
  \/ (kindOf t = reflect.Slice /\ Elem t = Some form.fileHeaderPtrType).

(** * Properties *)

(** ** The loops of the binder *)

(** Case analysis on every scrutinee of the goal. *)
Ltac case_matches :=
  repeat match goal with
  | |- context [match ?x with _ => _ end] => destruct x; simpl
  end.

Section bind.

Context {A : Type} (coerce : type -> bool -> A -> outcome val).

Lemma bindAll_length name f values st :
  length (form.bindAll coerce name f values st).1 = length st.
Proof.
  revert st; induction values as [|value values IH]; intros st; simpl; [reflexivity|].
  destruct (kindOf (typ f)); simpl;
    case_matches; rewrite ?IH, ?length_insert; done.
Qed.

Lemma bindAll_other name f values st j :
  j ≠ slot f ->
  (form.bindAll coerce name f values st).1 !! j = st !! j.
Proof.
  intros Hj; revert st; induction values as [|value values IH]; intros st; simpl; [reflexivity|].
  destruct (kindOf (typ f)); simpl;
    case_matches; rewrite ?IH, ?list_lookup_insert_ne; done.
Qed.

Lemma bindEntries_length fields entries st :
  length (form.bindEntries coerce fields entries st).1 = length st.
Proof.
  revert st; induction entries as [|[name values] entries IH]; intros st; simpl;
    [reflexivity|].
  destruct (fields !! name) as [f|]; [|apply IH].
  pose proof (bindAll_length name f values st) as Hlen.
  destruct (form.bindAll coerce name f values st) as [st' [[]| |]]; simpl in *;
    rewrite ?IH; done.
Qed.

(** A slot that no visited name designates keeps its datum, however the
    call ends. *)
Lemma bindEntries_other fields entries st j :
  (forall name values f,
     (name, values) ∈ entries -> fields !! name = Some f -> slot f ≠ j) ->
  (form.bindEntries coerce fields entries st).1 !! j = st !! j.
Proof.
  revert st; induction entries as [|[name values] entries IH]; intros st Hj; simpl;
    [reflexivity|].
  assert (Htl : forall name values f,
     (name, values) ∈ entries -> fields !! name = Some f -> slot f ≠ j).
  { intros n vs f Hin; apply (Hj n vs f); by right. }
  destruct (fields !! name) as [f|] eqn:Hf; [|by apply IH].
  assert (Hne : j ≠ slot f).
  { intros ->; eapply (Hj name values f); [by left|done|done]. }
  pose proof (bindAll_other name f values st j Hne) as Hst.
  destruct (form.bindAll coerce name f values st) as [st' [[]| |]]; simpl in *;
    rewrite ?IH; done.
Qed.

(** The entries are bound from left to right, and nothing is bound after
    the first failure. *)
Lemma bindEntries_app fields l1 l2 st :
  form.bindEntries coerce fields (l1 ++ l2) st =
  match form.bindEntries coerce fields l1 st with
  | (st', Done _) => form.bindEntries coerce fields l2 st'
  | stop => stop
  end.
Proof.
  revert st; induction l1 as [|[name values] l1 IH]; intros st; simpl; [reflexivity|].
  destruct (fields !! name) as [f|]; [|apply IH].
  destruct (form.bindAll coerce name f values st) as [st' [[]| |]]; by rewrite ?IH.
Qed.

(** Entries whose name is no key of [fields] may be left out. *)
Lemma bindEntries_filter fields entries st :
  form.bindEntries coerce fields entries st =
  form.bindEntries coerce fields
    (filter (fun e => is_Some (fields !! e.1)) entries) st.
Proof.
  revert st; induction entries as [|[name values] entries IH]; intros st; [reflexivity|].
  rewrite filter_cons; simpl.
  destruct (fields !! name) as [f|] eqn:Hf.
  - rewrite decide_True by eauto. simpl; rewrite Hf.
    destruct (form.bindAll coerce name f values st) as [st' [[]| |]]; by rewrite ?IH.
  - rewrite decide_False by (intros [? ?]; done). apply IH.
Qed.

(** With distinct names, and distinct slots for distinct names, the slot of
    [f] ends as the loop over the values of its name leaves it. *)
Lemma bindEntries_slot fields entries name values f st st' :
  NoDup entries.*1 ->
  (name, values) ∈ entries ->
  fields !! name = Some f ->
  (forall name' f', name' ≠ name -> fields !! name' = Some f' -> slot f' ≠ slot f) ->
  form.bindEntries coerce fields entries st = (st', ok) ->
  exists st1 st2,
    form.bindAll coerce name f values st1 = (st2, ok)
    /\ st1 !! slot f = st !! slot f
    /\ length st1 = length st
    /\ st' !! slot f = st2 !! slot f.
Proof.
  intros Hnd Hin Hf Hinj Hrun.
  apply list_elem_of_split in Hin as (l1 & l2 & ->).
  rewrite fmap_app, fmap_cons in Hnd; simpl in Hnd.
  apply NoDup_app in Hnd as (_ & Hl1 & Hnd).
  apply NoDup_cons in Hnd as (Hl2 & _).
  rewrite bindEntries_app in Hrun.
  pose proof (bindEntries_other fields l1 st (slot f)) as H1.
  pose proof (bindEntries_length fields l1 st) as Hlen1.
  destruct (form.bindEntries coerce fields l1 st) as [st1 [[]| |]]; try done.
  simpl in Hrun, H1, Hlen1. rewrite Hf in Hrun.
  pose proof (bindEntries_other fields l2) as H2.
  destruct (form.bindAll coerce name f values st1) as [st2 [[]| |]] eqn:Hall; try done.
  exists st1, st2; split_and!; [done| |done|].
  - apply H1. intros n vs f' Hn Hf'. apply Hinj with n; [|done].
    intros ->. apply (Hl1 name); [|left].
    apply list_elem_of_fmap; by exists (name, vs).
  - specialize (H2 st2 (slot f)). rewrite Hrun in H2. apply H2.
    intros n vs f' Hn Hf'. apply Hinj with n; [|done].
    intros ->. apply Hl2. apply list_elem_of_fmap; by exists (name, vs).
Qed.

(** A field that is no slice ends with the datum of the last value. *)
Lemma bindAll_scalar name f values value st st' :
  kindOf (typ f) ≠ reflect.Slice ->
  (slot f < length st)%nat ->
  last values = Some value ->
  form.bindAll coerce name f values st = (st', ok) ->
  exists x, coerce (typ f) (canSet f) value = Done x /\ st' !! slot f = Some x.
Proof.
  intros Hk; revert st; induction values as [|v values IH]; intros st Hlt Hlast;
    [done|].
  simpl. destruct (coerce (typ f) (canSet f) v) as [x| |] eqn:Hc.
  2,3: by destruct (kindOf (typ f)).
  intros Hrun.
  assert (Hrun' : form.bindAll coerce name f values (<[slot f := x]> st) = (st', ok))
    by (by destruct (kindOf (typ f))).
  destruct values as [|v' values].
  - simpl in Hrun', Hlast. injection Hrun' as <-. injection Hlast as <-.
    exists x; split; [done|]. by apply list_lookup_insert_eq.
  - apply (IH (<[slot f := x]> st)); [by rewrite length_insert|done|done].
Qed.

(** A slice field ends with its elements followed by the data of the
    values, in their order. *)
Lemma bindAll_slice name f et values st st' :
  kindOf (typ f) = reflect.Slice ->
  Elem (typ f) = Some et ->
  (slot f < length st)%nat ->
  form.bindAll coerce name f values st = (st', ok) ->
  exists elems,
    Forall2 (fun v e => coerce et true v = Done e) values elems
    /\ sliceElems (st' !! slot f) = sliceElems (st !! slot f) ++ elems
    /\ (values ≠ [] -> st' !! slot f = Some (VSlice (sliceElems (st !! slot f) ++ elems))).
Proof.
  intros Hk He; revert st; induction values as [|v values IH]; intros st Hlt; simpl.
  - intros [= <-]. exists []. rewrite app_nil_r. by split_and!.
  - rewrite Hk, He. destruct (coerce et true v) as [e| |] eqn:Hc; try done.
    destruct (canSet f); [|done]. intros Hrun.
    pose proof Hrun as Hrun'.
    apply IH in Hrun' as (elems & Hall & Hs & Hne); [|by rewrite length_insert].
    rewrite list_lookup_insert_eq in Hs, Hne by done. simpl in Hs, Hne.
    rewrite <- app_assoc in Hs, Hne. simpl in Hs, Hne.
    exists (e :: elems). split_and!; [by constructor|done|intros _].
    destruct values as [|v' values]; [|by apply Hne].
    apply Forall2_nil_inv_l in Hall as ->.
    simpl in Hrun. injection Hrun as <-.
    by rewrite list_lookup_insert_eq.
Qed.

End bind.

(** ** The map of fields *)

Lemma buildFieldsFrom_none tagKey sf i fields name :
  (forall f, f ∈ sf -> form.fieldName tagKey f ≠ name) ->
  form.buildFieldsFrom tagKey i sf fields !! name = fields !! name.
Proof.
  revert i fields; induction sf as [|f sf IH]; intros i fields Hno; simpl; [done|].
  rewrite IH by (intros f' Hf'; apply Hno; by right).
  apply lookup_insert_ne, Hno; by left.
Qed.

(** The last field of a name is the one the map holds for it. *)
Lemma buildFieldsFrom_last tagKey sf i fields j f :
  sf !! j = Some f ->
  (forall j' f', (j < j')%nat -> sf !! j' = Some f' ->
     form.fieldName tagKey f' ≠ form.fieldName tagKey f) ->
  form.buildFieldsFrom tagKey i sf fields !! form.fieldName tagKey f
  = Some (Field (i + j) f).
Proof.
  revert i fields j; induction sf as [|f0 sf IH]; intros i fields j Hj Hlast; [done|].
  destruct j as [|j]; simpl in *.
  - injection Hj as ->. rewrite buildFieldsFrom_none.
    + rewrite lookup_insert_eq. by rewrite Nat.add_0_r.
    + intros f' Hf'. apply list_elem_of_lookup in Hf' as [j' Hj'].
      apply (Hlast (S j')); [lia|done].
  - rewrite (IH (S i) _ j Hj).
    + f_equal; f_equal; lia.
    + intros j' f' Hlt Hj'. apply (Hlast (S j')); [lia|done].
Qed.

(** Whatever the map holds under a name is a field of that name. *)
Lemma buildFieldsFrom_some tagKey sf i fields name v :
  form.buildFieldsFrom tagKey i sf fields !! name = Some v ->
  fields !! name = Some v
  \/ exists j f, sf !! j = Some f /\ form.fieldName tagKey f = name /\ v = Field (i + j) f.
Proof.
  revert i fields; induction sf as [|f0 sf IH]; intros i fields; simpl; [by left|].
  intros Hv. apply IH in Hv as [Hv|(j & f & Hj & Hn & ->)].
  - destruct (decide (form.fieldName tagKey f0 = name)) as [<-|Hne].
    + rewrite lookup_insert_eq in Hv. injection Hv as <-.
      right. exists 0%nat, f0. by rewrite Nat.add_0_r.
    + rewrite lookup_insert_ne in Hv by done. by left.
  - right. exists (S j), f. split_and!; [done|done|f_equal; lia].
Qed.

Lemma buildFields_some tagKey sf name v :
  form.buildFields tagKey sf !! name = Some v ->
  exists j f, sf !! j = Some f /\ form.fieldName tagKey f = name /\ v = Field j f.
Proof.
  intros Hv. apply buildFieldsFrom_some in Hv as [Hv|Hv]; [done|exact Hv].
Qed.

Lemma buildFields_none tagKey sf name :
  (forall f, f ∈ sf -> form.fieldName tagKey f ≠ name) ->
  form.buildFields tagKey sf !! name = None.
Proof. intros Hno. unfold form.buildFields. by rewrite buildFieldsFrom_none. Qed.

(** When the effective names of the fields are pairwise distinct, the map
    holds every field under its name, and distinct names designate distinct
    slots. *)
Lemma buildFields_unique tagKey sf j f :
  NoDup (form.fieldName tagKey <$> sf) ->
  sf !! j = Some f ->
  form.buildFields tagKey sf !! form.fieldName tagKey f = Some (Field j f).
Proof.
  intros Hnd Hj. apply (buildFieldsFrom_last tagKey sf 0 ∅ j f Hj).
  intros j' f' Hlt Hj' Heq.
  assert (j = j'); [|lia].
  eapply NoDup_lookup; [exact Hnd| |]; rewrite list_lookup_fmap.
  - by rewrite Hj.
  - rewrite Hj'; simpl. by rewrite Heq.
Qed.

Lemma buildFields_slot_inj tagKey sf name name' f f' :
  form.buildFields tagKey sf !! name = Some f ->
  form.buildFields tagKey sf !! name' = Some f' ->
  slot f' = slot f ->
  name' = name.
Proof.
  intros (j & g & Hj & <- & ->)%buildFields_some (j' & g' & Hj' & <- & ->)%buildFields_some.
  simpl. intros ->. congruence.
Qed.

(** ** Schedules and merged values *)

Lemma range_lookup (sched : Schedule) {A : Type} (m : gmap string A) k v :
  (k, v) ∈ range sched m <-> m !! k = Some v.
Proof. rewrite (range_perm sched A m). apply elem_of_map_to_list. Qed.

Lemma range_NoDup (sched : Schedule) {A : Type} (m : gmap string A) :
  NoDup (range sched m).*1.
Proof. rewrite (range_perm sched A m). apply NoDup_fst_map_to_list. Qed.

Lemma copyValues_lookup (dst src : Values) k :
  copyValues dst src !! k =
  match dst !! k, src !! k with
  | Some a, Some b => Some (a ++ b)
  | Some a, None => Some a
  | None, o => o
  end.
Proof.
  unfold copyValues. rewrite lookup_union_with.
  by destruct (dst !! k), (src !! k).
Qed.

Lemma copyValues_empty (src : Values) : copyValues ∅ src = src.
Proof.
  apply map_eq; intros k. rewrite copyValues_lookup, lookup_empty.
  by destruct (src !! k).
Qed.

Lemma buildFieldsFrom_None_inv tagKey sf i fields name :
  form.buildFieldsFrom tagKey i sf fields !! name = None ->
  forall f, f ∈ sf -> form.fieldName tagKey f ≠ name.
Proof.
  revert i fields; induction sf as [|f0 sf IH]; intros i fields Hnone f Hf.
  - by apply elem_of_nil in Hf.
  - simpl in Hnone. apply elem_of_cons in Hf as [->|Hf]; [|by eapply IH].
    intros Heq.
    destruct (decide (Exists (fun f' => form.fieldName tagKey f' = name) sf)) as [Hex|Hno].
    + apply Exists_exists in Hex as (f' & Hf' & Hn'). by eapply IH.
    + rewrite buildFieldsFrom_none, <- Heq, lookup_insert_eq in Hnone; [done|].
      intros f' Hf' Hn'. apply Hno, Exists_exists. eauto.
Qed.

(** The keys of the map of fields are the effective names of the fields. *)
Lemma buildFields_is_Some tagKey sf name :
  is_Some (form.buildFields tagKey sf !! name)
  <-> Exists (fun f => form.fieldName tagKey f = name) sf.
Proof.
  rewrite Exists_exists. split.
  - intros [v (j & f & Hj & Hn & _)%buildFields_some].
    exists f. split; [|done]. apply list_elem_of_lookup; eauto.
  - intros (f & Hf & Hn).
    destruct (form.buildFields tagKey sf !! name) eqn:Hl; [eauto|].
    by eapply buildFieldsFrom_None_inv in Hl.
Qed.

(** ** What [populate] does, kind by kind *)

Lemma populate_String t value :
  kindOf t = reflect.String -> form.populate t true value = Done (VString value).
Proof. unfold form.populate. by intros ->. Qed.

Lemma populate_Int t settable value :
  kindOf t = reflect.Int ->
  form.populate t settable value =
  match strconv.ParseInt value 10 64 with
  | (_, Some e) => Failed (NumErr e)
  | (i, None) => if settable then Done (VInt i) else Panicked
  end.
Proof. unfold form.populate. intros ->. by destruct (strconv.ParseInt value 10 64) as [? []]. Qed.

Lemma populate_Bool t settable value :
  kindOf t = reflect.Bool ->
  form.populate t settable value =
  match strconv.ParseBool value with
  | (_, Some e) => Failed (NumErr e)
  | (b, None) => if settable then Done (VBool b) else Panicked
  end.
Proof. unfold form.populate. intros ->. by destruct (strconv.ParseBool value) as [? []]. Qed.

(** C9. A field whose effective name is no key of the value source holds
    after [unpack] the datum it held before, however the call ends; and the
    call ends, with the same data and the same result, as if only the keys
    that name a field were present: a key that names no field is skipped
    without an error and without a change. *)
Theorem unpack_keeps_unnamed_fields_and_skips_unknown_keys
    (sched : Schedule) (tagKey : string) (sf : list StructField) (src : Values)
    (st : store) :
  (forall i f,
     sf !! i = Some f ->
     src !! form.fieldName tagKey f = None ->
     (form.unpack sched (form.buildFields tagKey sf) src st).1 !! i = st !! i)
  /\ form.unpack sched (form.buildFields tagKey sf) src st =
     form.bindEntries form.populate (form.buildFields tagKey sf)
       (filter (fun e => Exists (fun f => form.fieldName tagKey f = e.1) sf)
               (range sched src)) st
  /\ ((forall k, is_Some (src !! k) -> Forall (fun f => form.fieldName tagKey f ≠ k) sf) ->
      form.unpack sched (form.buildFields tagKey sf) src st = (st, ok)).
Proof.
  assert (Hfilter : form.unpack sched (form.buildFields tagKey sf) src st =
     form.bindEntries form.populate (form.buildFields tagKey sf)
       (filter (fun e => Exists (fun f => form.fieldName tagKey f = e.1) sf)
               (range sched src)) st).
  { unfold form.unpack. rewrite bindEntries_filter. f_equal.
    apply list_filter_iff. intros [k vs]. apply buildFields_is_Some. }
  split_and!; [|exact Hfilter|].
  - intros i f Hi Hnone. unfold form.unpack. apply bindEntries_other.
    intros name values g Hin Hg Hslot.
    apply buildFields_some in Hg as (j & f' & Hj & Hname & ->). simpl in Hslot.
    subst j. rewrite Hj in Hi. injection Hi as ->.
    apply range_lookup in Hin. congruence.
  - intros Hall. rewrite Hfilter.
    destruct (filter _ (range sched src)) as [|[k vs] l] eqn:Hfl; [done|].
    assert (Hin : (k, vs) ∈ filter
      (fun e => Exists (fun f => form.fieldName tagKey f = e.1) sf) (range sched src))
      by (rewrite Hfl; left).
    apply list_elem_of_filter in Hin as [Hex Hin]. simpl in Hex.
    apply range_lookup in Hin.
    apply Exists_exists in Hex as (f & Hf & Hn).
    assert (Hk : is_Some (src !! k)) by eauto.
    apply Hall in Hk. rewrite Forall_forall in Hk. by apply Hk in Hf.
Qed.

(** The spec's "default preservation" and "unrecognized keys": a source with
    [q] and [extra] leaves ["2333"] in [Default]. *)
Lemma unpack_keeps_unnamed_fields_and_skips_unknown_keys_witness :
  (form.unpack ascending (form.buildFields "json" sample.Params)
     (<["q" := ["golang"]]> {["extra" := ["1"]]}) sample.withDefault).1 !! 5%nat
  = Some (VString "2333").
Proof.
  apply (proj1 (unpack_keeps_unnamed_fields_and_skips_unknown_keys ascending "json"
                  sample.Params (<["q" := ["golang"]]> {["extra" := ["1"]]})
                  sample.withDefault)
           5%nat (sample.field "Default" (Basic Tstring) [("json", "default")]));
    [reflexivity | vm_compute; reflexivity].
Defined.

(** ** C1: a failure half-way *)

(** C1, as the code has it. A struct with a text field [fA] and an integer
    field [fB] of different effective names is bound from a source that
    holds one value for each, the one for [fB] a malformed numeral. Whatever
    the order in which the runtime visits the two keys, [unpack] returns the
    error of [ParseInt] wrapped with the effective name of [fB], and [fB]
    keeps its datum. The failure stops the loop: when the key of [fA] is
    visited first, [fA] holds its new value; when the key of [fB] is visited
    first, [fA] is not bound and keeps its datum. *)
Theorem unpack_stops_at_malformed_integer
    (sched : Schedule) (tagKey : string) (fA fB : StructField) (a0 b0 : val)
    (va vb : string) (i : Z) (e : strconv.NumError) :
  kindOf (Type_ fA) = reflect.String ->
  PkgPath fA = "" ->
  kindOf (Type_ fB) = reflect.Int ->
  form.fieldName tagKey fA ≠ form.fieldName tagKey fB ->
  strconv.ParseInt vb 10 64 = (i, Some e) ->
  exists st',
    form.unpack sched (form.buildFields tagKey [fA; fB])
      (<[form.fieldName tagKey fA := [va]]> {[form.fieldName tagKey fB := [vb]]})
      [a0; b0]
    = (st', Failed (Errorf "%s: %v"
                      [AString (form.fieldName tagKey fB); AError (NumErr e)]))
    /\ st' !! 1%nat = Some b0
    /\ ((range sched (<[form.fieldName tagKey fA := [va]]>
                        ({[form.fieldName tagKey fB := [vb]]} : Values))
         = [(form.fieldName tagKey fA, [va]); (form.fieldName tagKey fB, [vb])]
         /\ st' !! 0%nat = Some (VString va))
        \/ (range sched (<[form.fieldName tagKey fA := [va]]>
                          ({[form.fieldName tagKey fB := [vb]]} : Values))
            = [(form.fieldName tagKey fB, [vb]); (form.fieldName tagKey fA, [va])]
            /\ st' !! 0%nat = Some a0)).
Proof.
  intros HkA HpA HkB Hne Hparse.
  set (a := form.fieldName tagKey fA) in *.
  set (b := form.fieldName tagKey fB) in *.
  assert (Hfa : form.buildFields tagKey [fA; fB] !! a = Some (Field 0 fA)).
  { unfold form.buildFields; simpl. fold a b.
    rewrite lookup_insert_ne by done. apply lookup_insert_eq. }
  assert (Hfb : form.buildFields tagKey [fA; fB] !! b = Some (Field 1 fB)).
  { unfold form.buildFields; simpl. fold a b. apply lookup_insert_eq. }
  assert (Hperm : range sched (<[a := [va]]> ({[b := [vb]]} : Values))
                  ≡ₚ [(a, [va]); (b, [vb])]).
  { rewrite (range_perm sched).
    rewrite map_to_list_insert by (by apply lookup_singleton_ne).
    by rewrite map_to_list_singleton. }
  assert (HA : form.populate (Type_ fA) (String.eqb (PkgPath fA) "") va
               = Done (VString va)).
  { rewrite HpA. simpl. by apply populate_String. }
  assert (HB : form.populate (Type_ fB) (String.eqb (PkgPath fB) "") vb
               = Failed (NumErr e)).
  { rewrite populate_Int by done. by rewrite Hparse. }
  unfold form.unpack.
  symmetry in Hperm. apply Permutation_length_2_inv in Hperm as [-> | ->]; simpl;
    rewrite ?Hfa, ?Hfb; simpl; rewrite ?HkA, ?HkB, ?HA, ?HB; simpl;
    rewrite ?Hfb; simpl; rewrite ?HkB, ?HB; simpl.
  - eexists; split_and!; [reflexivity|reflexivity|left; by split].
  - eexists; split_and!; [reflexivity|reflexivity|right; by split].
Qed.

Lemma unpack_stops_at_malformed_integer_witness :
  exists st',
    form.unpack ascending (form.buildFields "json" sample.AB)
      (<["a" := ["hello"]]> {["b" := ["not-a-number"]]}) sample.oldAB
    = (st', Failed (Errorf "%s: %v"
         [AString "b"; AError (NumErr (strconv.syntaxError "ParseInt" "not-a-number"))]))
    /\ st' !! 1%nat = Some (VInt 7)
    /\ ((range ascending (<["a" := ["hello"]]> ({["b" := ["not-a-number"]]} : Values))
         = [("a", ["hello"]); ("b", ["not-a-number"])]
         /\ st' !! 0%nat = Some (VString "hello"))
        \/ (range ascending (<["a" := ["hello"]]> ({["b" := ["not-a-number"]]} : Values))
            = [("b", ["not-a-number"]); ("a", ["hello"])]
            /\ st' !! 0%nat = Some (VString "old"))).
Proof.
  apply (unpack_stops_at_malformed_integer ascending "json"
           (sample.field "A" (Basic Tstring) []) (sample.field "B" (Basic Tint) [])
           (VString "old") (VInt 7) "hello" "not-a-number" 0
           (strconv.syntaxError "ParseInt" "not-a-number"));
    [reflexivity | reflexivity | reflexivity | discriminate | reflexivity].
Defined.

(** C1, as the claim states it, fails: with the key of [B] visited first,
    the call returns the error and [A] still holds ["old"], not ["hello"]. *)
Lemma unpack_malformed_integer_first_leaves_text_unbound :
  form.unpack descending (form.buildFields "json" sample.AB)
    (<["a" := ["hello"]]> {["b" := ["not-a-number"]]}) sample.oldAB
  = ([VString "old"; VInt 7],
     Failed (Errorf "%s: %v"
       [AString "b"; AError (NumErr (strconv.syntaxError "ParseInt" "not-a-number"))]))
  /\ (form.unpack descending (form.buildFields "json" sample.AB)
        (<["a" := ["hello"]]> {["b" := ["not-a-number"]]}) sample.oldAB).1 !! 0%nat
     <> Some (VString "hello").
Proof. split; [vm_compute; reflexivity | vm_compute; discriminate]. Qed.

(** ** C2, C3: the strategies *)

(** The value source of a strategy, as [UnpackWithOption] picks it. *)
Lemma UnpackWithOption_Query sched vars r sf st st' :
  form.UnpackWithOption sched vars r sf st form.Query = (st', ok) ->
  form.unpack sched (form.buildFields (form.fieldTag vars) sf) (URLQuery r) st = (st', ok).
Proof.
  unfold form.UnpackWithOption. simpl.
  destruct (ParseForm r) as [p [e|]]; [discriminate|done].
Qed.

Lemma UnpackWithOption_Body sched vars r sf st st' :
  form.UnpackWithOption sched vars r sf st form.Body = (st', ok) ->
  form.unpack sched (form.buildFields (form.fieldTag vars) sf)
    (PostForm (ParseForm r).1) st = (st', ok).
Proof.
  unfold form.UnpackWithOption. simpl.
  destruct (ParseForm r) as [p [e|]]; [discriminate|done].
Qed.

Lemma UnpackWithOption_Mixed sched vars r sf st st' :
  form.UnpackWithOption sched vars r sf st form.Mixed = (st', ok) ->
  form.unpack sched (form.buildFields (form.fieldTag vars) sf)
    (Form (ParseForm r).1) st = (st', ok).
Proof.
  unfold form.UnpackWithOption. simpl.
  destruct (ParseForm r) as [p [e|]]; [discriminate|done].
Qed.

(** [r.Form] holds, for every key, the values of the body and then those of
    the query. *)
Lemma ParseForm_Form r k :
  Form (ParseForm r).1 !! k =
  match PostForm (ParseForm r).1 !! k, URLQuery r !! k with
  | Some b, Some q => Some (b ++ q)
  | Some b, None => Some b
  | None, o => o
  end.
Proof.
  unfold ParseForm.
  destruct (oneOf _ _); cbn [fst Form PostForm];
    rewrite copyValues_empty, ?copyValues_lookup, ?lookup_empty; done.
Qed.

(** In a successful [unpack] into a struct whose effective names are
    distinct, the slot of a field is left as the loop over the values of its
    name leaves it. *)
Lemma unpack_field sched tagKey sf (src : Values) st st' i f values :
  NoDup (form.fieldName tagKey <$> sf) ->
  sf !! i = Some f ->
  src !! form.fieldName tagKey f = Some values ->
  form.unpack sched (form.buildFields tagKey sf) src st = (st', ok) ->
  exists st1 st2,
    form.bindAll form.populate (form.fieldName tagKey f) (Field i f) values st1 = (st2, ok)
    /\ st1 !! i = st !! i
    /\ length st1 = length st
    /\ st' !! i = st2 !! i.
Proof.
  intros Hnd Hi Hsrc Hrun.
  pose proof (buildFields_unique tagKey sf i f Hnd Hi) as Hf.
  apply (bindEntries_slot form.populate (form.buildFields tagKey sf) (range sched src)
           (form.fieldName tagKey f) values (Field i f) st st'); try done.
  - apply range_NoDup.
  - by apply range_lookup.
  - intros name' f' Hne Hf' Hslot. apply Hne.
    by eapply buildFields_slot_inj.
Qed.

Lemma populate_Done_settable t settable value x :
  form.populate t settable value = Done x -> form.populate t true value = Done x.
Proof.
  unfold form.populate.
  destruct (kindOf t), settable; try done; case_matches; done.
Qed.

(** C2. Mixed strategy: when the posted body and the URL query both hold
    values for the effective name of a field that is no slice, a successful
    call leaves in the field the datum of the query's value (of its last
    value, when the query repeats the key). *)
Theorem mixed_query_value_wins
    (sched : Schedule) (vars : form.Vars) (r : Request) (sf : list StructField)
    (st st' : store) (i : nat) (f : StructField) (bs qs : list string) (q : string) :
  NoDup (form.fieldName (form.fieldTag vars) <$> sf) ->
  length st = length sf ->
  sf !! i = Some f ->
  kindOf (Type_ f) ≠ reflect.Slice ->
  PostForm (ParseForm r).1 !! form.fieldName (form.fieldTag vars) f = Some bs ->
  URLQuery r !! form.fieldName (form.fieldTag vars) f = Some qs ->
  last qs = Some q ->
  form.UnpackWithOption sched vars r sf st form.Mixed = (st', ok) ->
  exists x, form.populate (Type_ f) true q = Done x /\ st' !! i = Some x.
Proof.
  intros Hnd Hlen Hi Hk Hb Hq Hlast Hrun%UnpackWithOption_Mixed.
  eapply unpack_field in Hrun as (st1 & st2 & Hall & _ & Hlen1 & Hst'); [|done|done|].
  2:{ rewrite ParseForm_Form, Hb, Hq. reflexivity. }
  apply (bindAll_scalar _ _ _ _ q) in Hall as (x & Hx & Hst2); simpl; try done.
  - exists x. simpl in Hx, Hst2. split; [by eapply populate_Done_settable|congruence].
  - rewrite Hlen1, Hlen. by eapply lookup_lt_Some.
  - apply last_Some in Hlast as [qs' ->]. by rewrite app_assoc, last_snoc.
Qed.

(** The test "POST body mixes url encode": [default=888] in the query and
    [default=999] in the body leave ["888"] in [Default]. *)
Lemma mixed_query_value_wins_witness :
  exists x,
    form.populate (Basic Tstring) true "888" = Done x
    /\ (form.UnpackWithOption ascending form.initialVars
          (sample.request "POST"
             [("q", ["rust"]); ("default", ["888"])]
             [("q", ["golang"]); ("int", ["233"]); ("default", ["999"])])
          sample.Params sample.withDefault form.Mixed).1 !! 5%nat = Some x.
Proof.
  apply (mixed_query_value_wins ascending form.initialVars
           (sample.request "POST"
              [("q", ["rust"]); ("default", ["888"])]
              [("q", ["golang"]); ("int", ["233"]); ("default", ["999"])])
           sample.Params sample.withDefault _ 5
           (sample.field "Default" (Basic Tstring) [("json", "default")])
           ["999"] ["888"] "888").
  - apply (bool_decide_unpack _). vm_compute. exact I.
  - reflexivity.
  - reflexivity.
  - discriminate.
  - vm_compute. reflexivity.
  - vm_compute. reflexivity.
  - reflexivity.
  - vm_compute. reflexivity.
Defined.

(** C3, as the code has it. A field that is a slice of integers, bound
    from a value source that holds ["1"; "2"; "3"] for its effective name,
    is left by a successful call with the elements it had before the call
    followed by 1, 2, 3, in this order; so it ends as [1, 2, 3] when it was
    empty before. This holds for the query, the body and the merged
    strategy (where one of the two components holds the values). *)
Theorem slice_of_integers_appends_in_order
    (sched : Schedule) (vars : form.Vars) (r : Request) (sf : list StructField)
    (st st' : store) (i : nat) (f : StructField) (et : type) (option : form.Option) :
  NoDup (form.fieldName (form.fieldTag vars) <$> sf) ->
  length st = length sf ->
  sf !! i = Some f ->
  kindOf (Type_ f) = reflect.Slice ->
  Elem (Type_ f) = Some et ->
  kindOf et = reflect.Int ->
  (option = form.Query
     /\ URLQuery r !! form.fieldName (form.fieldTag vars) f = Some ["1"; "2"; "3"])
  \/ (option = form.Body
     /\ PostForm (ParseForm r).1 !! form.fieldName (form.fieldTag vars) f
        = Some ["1"; "2"; "3"])
  \/ (option = form.Mixed
     /\ ((URLQuery r !! form.fieldName (form.fieldTag vars) f = Some ["1"; "2"; "3"]
          /\ PostForm (ParseForm r).1 !! form.fieldName (form.fieldTag vars) f = None)
         \/ (PostForm (ParseForm r).1 !! form.fieldName (form.fieldTag vars) f
               = Some ["1"; "2"; "3"]
             /\ URLQuery r !! form.fieldName (form.fieldTag vars) f = None))) ->
  form.UnpackWithOption sched vars r sf st option = (st', ok) ->
  st' !! i = Some (VSlice (sliceElems (st !! i) ++ [VInt 1; VInt 2; VInt 3]))
  /\ (sliceElems (st !! i) = [] -> st' !! i = Some (VSlice [VInt 1; VInt 2; VInt 3])).
Proof.
  intros Hnd Hlen Hi Hk He Hek Hsrc Hrun.
  assert (Hbound : exists src : Values,
    src !! form.fieldName (form.fieldTag vars) f = Some ["1"; "2"; "3"]
    /\ form.unpack sched (form.buildFields (form.fieldTag vars) sf) src st = (st', ok)).
  { destruct Hsrc as [[-> Hq]|[[-> Hb]|[-> Hm]]].
    - exists (URLQuery r). split; [done|by apply UnpackWithOption_Query].
    - exists (PostForm (ParseForm r).1). split; [done|by apply UnpackWithOption_Body].
    - exists (Form (ParseForm r).1). split; [|by apply UnpackWithOption_Mixed].
      rewrite ParseForm_Form. by destruct Hm as [[-> ->]|[-> ->]]. }
  destruct Hbound as (src & Hsrc' & Hunpack).
  eapply unpack_field in Hunpack as (st1 & st2 & Hall & Hst1 & Hlen1 & Hst'); [|done..].
  apply (bindAll_slice _ _ _ et) in Hall as (elems & Hcoerce & _ & Hst2); simpl; try done.
  2:{ rewrite Hlen1, Hlen. by eapply lookup_lt_Some. }
  simpl in Hst2. rewrite Hst1 in Hst2. rewrite Hst', Hst2 by done.
  assert (elems = [VInt 1; VInt 2; VInt 3]) as ->.
  { repeat match goal with
    | H : Forall2 _ (_ :: _) _ |- _ => apply Forall2_cons_inv_l in H as (? & ? & ? & ? & ->)
    | H : Forall2 _ [] _ |- _ => apply Forall2_nil_inv_l in H as ->
    | H : form.populate et true _ = Done _ |- _ =>
        rewrite populate_Int in H by done; vm_compute in H; injection H as <-
    end. reflexivity. }
  split; [done|]. by intros ->.
Qed.

(** The test "GET url encode": [array=1&array=2&array=3] into an empty
    [Array]. *)
Lemma slice_of_integers_appends_in_order_witness :
  exists st',
    form.UnpackWithOption ascending form.initialVars
      (sample.request "GET" [("q", ["golang"]); ("array", ["1"; "2"; "3"])] [])
      sample.Params sample.withDefault form.Query = (st', ok)
    /\ st' !! 4%nat = Some (VSlice [VInt 1; VInt 2; VInt 3]).
Proof.
  eexists. split; [vm_compute; reflexivity|].
  apply (slice_of_integers_appends_in_order ascending form.initialVars
           (sample.request "GET" [("q", ["golang"]); ("array", ["1"; "2"; "3"])] [])
           sample.Params sample.withDefault _ 4
           (sample.field "Array" (SliceOf (Basic Tint)) [("json", "array")])
           (Basic Tint) form.Query).
  - apply (bool_decide_unpack _). vm_compute. exact I.
  - reflexivity.
  - reflexivity.
  - reflexivity.
  - reflexivity.
  - reflexivity.
  - left. split; [reflexivity|vm_compute; reflexivity].
  - vm_compute. reflexivity.
  - reflexivity.
Defined.

(** C3, as the claim states it, fails: an [Array] that holds [7] before
    the call holds [7, 1, 2, 3] after it, not [1, 2, 3]. *)
Lemma slice_of_integers_keeps_earlier_elements :
  form.UnpackWithOption ascending form.initialVars
    (sample.request "GET" [("array", ["1"; "2"; "3"])] [])
    [sample.field "Array" (SliceOf (Basic Tint)) [("json", "array")]]
    [VSlice [VInt 7]] form.Query
  = ([VSlice [VInt 7; VInt 1; VInt 2; VInt 3]], ok).
Proof. vm_compute. reflexivity. Qed.

(** ** C4, C10: [populate] *)

(** C4, as the code has it. A boolean field accepts exactly the twelve
    spellings of [strconv.ParseBool]: 1, t, T, true, TRUE, True give [true];
    0, f, F, false, FALSE, False give [false]; every other string, other
    mixes of case included, fails with the syntax error of [ParseBool]. *)
Theorem populate_bool_accepts_twelve_spellings (t : type) (value : string) :
  kindOf t = reflect.Bool ->
  (In value ["1"; "t"; "T"; "true"; "TRUE"; "True"] ->
     form.populate t true value = Done (VBool true))
  /\ (In value ["0"; "f"; "F"; "false"; "FALSE"; "False"] ->
     form.populate t true value = Done (VBool false))
  /\ (~ In value ["1"; "t"; "T"; "true"; "TRUE"; "True";
                  "0"; "f"; "F"; "false"; "FALSE"; "False"] ->
     forall settable,
       form.populate t settable value
       = Failed (NumErr (strconv.syntaxError "ParseBool" value))).
Proof.
  intros Hk. split_and!.
  - intros Hin. rewrite populate_Bool by done.
    simpl in Hin. by repeat destruct Hin as [<-|Hin].
  - intros Hin. rewrite populate_Bool by done.
    simpl in Hin. by repeat destruct Hin as [<-|Hin].
  - intros Hnot settable. rewrite populate_Bool by done.
    unfold strconv.ParseBool, oneOf.
    destruct (existsb _ strconv.trueSpellings) eqn:Ht.
    { apply existsb_exists in Ht as (x & Hx & ->%String.eqb_eq).
      exfalso. apply Hnot. apply in_or_app with (l := strconv.trueSpellings). by left. }
    destruct (existsb _ strconv.falseSpellings) eqn:Hf; [|done].
    apply existsb_exists in Hf as (x & Hx & ->%String.eqb_eq).
    exfalso. apply Hnot. apply in_or_app with (l := strconv.trueSpellings). by right.
Qed.

Lemma populate_bool_accepts_twelve_spellings_witness :
  form.populate (Basic Tbool) true "True" = Done (VBool true).
Proof.
  apply (populate_bool_accepts_twelve_spellings (Basic Tbool) "True");
    [reflexivity | simpl; tauto].
Defined.

(** C4, as the claim states it, fails: [tRUE] is [true] up to case, and is
    refused. *)
Lemma populate_bool_refuses_tRUE :
  lowerASCII "tRUE" = "true"
  /\ form.populate (Basic Tbool) true "tRUE"
     = Failed (NumErr (strconv.syntaxError "ParseBool" "tRUE")).
Proof. split; reflexivity. Qed.

(** C10. [populate] fails with "unsupported kind", naming the type, exactly
    for the types whose kind is none of string, int, bool and float64,
    whatever the value; in particular for every integer type other than
    [int] (kinds int8 to int64, uint to uint64, uintptr). Through [unpack],
    the error comes wrapped with the name, and the field is not written. *)
Theorem populate_unsupported_kind (t : type) :
  (In (kindOf t) otherIntegerKinds ->
     forall settable value,
       form.populate t settable value = Failed (Errorf "unsupported kind %s" [AType t]))
  /\ (forall settable value,
        form.populate t settable value = Failed (Errorf "unsupported kind %s" [AType t])
        <-> ~ In (kindOf t) coercibleKinds)
  /\ (In (kindOf t) otherIntegerKinds ->
      forall name settable i value values st,
        form.bindAll form.populate name {| typ := t; canSet := settable; slot := i |}
          (value :: values) st
        = (st, Failed (Errorf "%s: %v"
             [AString name; AError (Errorf "unsupported kind %s" [AType t])]))).
Proof.
  unfold otherIntegerKinds, coercibleKinds. split_and!.
  - intros Hin settable value. unfold form.populate.
    simpl in Hin. by repeat destruct Hin as [<-|Hin].
  - intros settable value. unfold form.populate. simpl.
    destruct (kindOf t), settable; simpl; case_matches;
      (split;
        [ first [discriminate | intros _; intuition discriminate]
        | first [reflexivity | intros Hn; exfalso; apply Hn; auto 10] ]).
  - intros Hin name settable i value values st. simpl.
    unfold form.populate.
    simpl in Hin. by repeat destruct Hin as [<-|Hin].
Qed.

Lemma populate_unsupported_kind_witness :
  form.populate (Basic Tint64) true "233"
  = Failed (Errorf "unsupported kind %s" [AType (Basic Tint64)]).
Proof.
  apply (proj1 (populate_unsupported_kind (Basic Tint64))).
  unfold otherIntegerKinds; simpl; tauto.
Defined.

(** The four kinds do coerce: the values of the test "GET url encode". *)
Example populate_coercible_kinds :
  form.populate (Basic Tstring) true "golang" = Done (VString "golang")
  /\ form.populate (Basic Tint) true "233" = Done (VInt 233)
  /\ form.populate (Basic Tbool) true "true" = Done (VBool true)
  /\ form.populate (Basic Tfloat64) true "3.14159"
     = Done (VFloat (S754_finite false 7074231776675438 (-51))).
Proof. split_and!; reflexivity. Qed.

(** ** C8: the memory threshold *)

(** C8. The initial value of [MultipartMaxMemory] is [10 * 1024], that is
    10240 bytes: it is not the [10 * 1024 * 1024] of "Default to 10M". *)
Theorem MultipartMaxMemory_is_10240 :
  form.MultipartMaxMemory = 10240
  /\ form.maxMemory form.initialVars = 10240
  /\ form.MultipartMaxMemory <> 10 * 1024 * 1024.
Proof. split_and!; [reflexivity | reflexivity | discriminate]. Qed.

(** ** C5: effective names *)

(** C5. The effective name of a field is the value of its tag under the
    tag key when that value is not empty. Otherwise (no such tag, or an
    empty value) the code lower-cases the first byte of the identifier, not
    its first character: for an identifier that starts with an ASCII byte
    the name is the identifier with its first character in lower case and
    the rest as it is; for the field [Éa] (bytes C3 89 61) the code
    lower-cases the one-byte string C3 and keeps 89 61, so that the name is
    EF BF BD 89 61 (U+FFFD, the second byte of É, [a]) and not [éa]
    (C3 A9 61). *)
Theorem fieldName_lowers_first_byte_only :
  (forall (tagKey : string) (f : StructField),
     (Get (Tag f) tagKey ≠ "" -> form.fieldName tagKey f = Get (Tag f) tagKey)
     /\ (Get (Tag f) tagKey = "" ->
         forall c rest, Name f = String.String c rest -> code c < 128 ->
         form.fieldName tagKey f = String.String (lowerByte c) rest))
  /\ Name sample.accented
     = String.String (byte_of 195) (String.String (byte_of 137) "a")
  /\ form.fieldName "json" sample.accented
     = String.String (byte_of 239) (String.String (byte_of 191)
         (String.String (byte_of 189) (String.String (byte_of 137) "a")))
  /\ form.fieldName "json" sample.accented
     <> String.String (byte_of 195) (String.String (byte_of 169) "a").
Proof.
  split_and!; [|reflexivity|reflexivity|discriminate].
  intros tagKey f. unfold form.fieldName. split.
  - intros Hne. by apply String.eqb_neq in Hne as ->.
  - intros -> c rest -> Hc. simpl. unfold form.ToLowerByte.
    apply Z.ltb_lt in Hc. by rewrite Hc.
Qed.

(** [CamelCase int] of example_test.go is bound from [camelCase]. *)
Example fieldName_CamelCase :
  form.fieldName "http" (sample.field "CamelCase" (Basic Tint) []) = "camelCase".
Proof. reflexivity. Qed.

(** ** C6, C7: the dispatcher *)

Lemma oneOf_In (str : string) (l : list string) :
  oneOf str l = true <-> In str l.
Proof.
  unfold oneOf. rewrite existsb_exists. split.
  - by intros (x & Hx & ->%String.eqb_eq).
  - intros Hin. exists str. split; [done|apply String.eqb_refl].
Qed.

(** C6. For the methods GET, DELETE, HEAD and TRACE, [Unmarshal] is the
    query-only bind and returns what it returns: the error of the query
    parser if there is one, and otherwise the outcome of [unpack] on the
    values of the URL query. Neither the Content-Type header nor any view
    of the body nor a decoder takes part: two requests with the same method
    and the same query give the same outcome. *)
Theorem Unmarshal_no_body_method_binds_query_only
    (sched : Schedule) (vars : form.Vars) (dec : reqconv.Decoders) (r : Request)
    (sf : list StructField) (st : store) :
  In (Method r) ["GET"; "DELETE"; "HEAD"; "TRACE"] ->
  reqconv.Unmarshal sched vars dec r sf st
  = form.UnpackWithOption sched vars r sf st form.Query
  /\ reqconv.Unmarshal sched vars dec r sf st
     = match URLQueryErr r with
       | Some e => (st, Failed e)
       | None => form.unpack sched (form.buildFields (form.fieldTag vars) sf)
                   (URLQuery r) st
       end
  /\ (forall (dec' : reqconv.Decoders) (r' : Request),
        Method r' = Method r -> URLQuery r' = URLQuery r ->
        URLQueryErr r' = URLQueryErr r ->
        reqconv.Unmarshal sched vars dec' r' sf st
        = reqconv.Unmarshal sched vars dec r sf st).
Proof.
  intros Hm.
  assert (Hquery : forall dec0 r0, Method r0 = Method r ->
    reqconv.Unmarshal sched vars dec0 r0 sf st
    = match URLQueryErr r0 with
      | Some e => (st, Failed e)
      | None => form.unpack sched (form.buildFields (form.fieldTag vars) sf)
                  (URLQuery r0) st
      end).
  { intros dec0 r0 Heq. unfold reqconv.Unmarshal.
    assert (Hone : oneOf (Method r0) reqconv.noBodyMethods = true)
      by (rewrite Heq; by apply oneOf_In).
    rewrite Hone. unfold form.UnpackWithOption, ParseForm. simpl.
    rewrite Heq. simpl in Hm.
    by repeat destruct Hm as [<-|Hm]; simpl; destruct (URLQueryErr r0). }
  split_and!.
  - unfold reqconv.Unmarshal.
    by replace (oneOf (Method r) reqconv.noBodyMethods) with true
      by (symmetry; by apply oneOf_In).
  - by apply Hquery.
  - intros dec' r' Hmeth Hq He. rewrite (Hquery dec' r' Hmeth), (Hquery dec r eq_refl).
    by rewrite Hq, He.
Qed.

(** The test "GET default value": nothing in the query, [Default] keeps
    ["2333"]. *)
Lemma Unmarshal_no_body_method_binds_query_only_witness :
  reqconv.Unmarshal ascending form.initialVars sample.decoders
    (sample.request "GET" [] []) sample.Params sample.withDefault
  = form.UnpackWithOption ascending form.initialVars
      (sample.request "GET" [] []) sample.Params sample.withDefault form.Query.
Proof.
  apply (proj1 (Unmarshal_no_body_method_binds_query_only ascending form.initialVars
           sample.decoders (sample.request "GET" [] []) sample.Params
           sample.withDefault ltac:(simpl; tauto))).
Defined.

(** C7. On any other method, a request whose Content-Type header is absent
    is handled as [application/octet-stream], and a request whose header
    parses to a media type that is none of the four recognized ones is
    handled alike: [Unmarshal] returns the error "unsupported content type"
    with the declared type (the header as it stands; the default when there
    is no header), and the data of the struct are those it had. *)
Theorem Unmarshal_unsupported_content_type
    (sched : Schedule) (vars : form.Vars) (dec : reqconv.Decoders) (r : Request)
    (sf : list StructField) (st : store) :
  ~ In (Method r) ["GET"; "DELETE"; "HEAD"; "TRACE"] ->
  (ContentType r = "" ->
   reqconv.ParseMediaType dec "application/octet-stream"
   = ("application/octet-stream", None) ->
   reqconv.Unmarshal sched vars dec r sf st
   = (st, Failed (Errorf "unsupported content type: %s"
                    [AString "application/octet-stream"])))
  /\ (forall mediaType,
        ContentType r ≠ "" ->
        reqconv.ParseMediaType dec (ContentType r) = (mediaType, None) ->
        ~ In mediaType recognizedTypes ->
        reqconv.Unmarshal sched vars dec r sf st
        = (st, Failed (Errorf "unsupported content type: %s"
                         [AString (ContentType r)]))).
Proof.
  intros Hm.
  assert (Hone : oneOf (Method r) reqconv.noBodyMethods = false).
  { destruct (oneOf _ _) eqn:Hone; [|done]. by apply oneOf_In in Hone. }
  split.
  - intros Hct Hparse. unfold reqconv.Unmarshal, reqconv.declaredType.
    rewrite Hone, Hct. simpl. by rewrite Hparse.
  - intros mediaType Hct Hparse Hnot.
    unfold reqconv.Unmarshal, reqconv.declaredType. rewrite Hone.
    apply String.eqb_neq in Hct as ->. rewrite Hparse.
    unfold recognizedTypes in Hnot. simpl in Hnot.
    repeat match goal with
    | |- context [String.eqb mediaType ?s] =>
        destruct (String.eqb_spec mediaType s) as [->|_]; [exfalso; apply Hnot; tauto|]
    end.
    reflexivity.
Qed.

(** The test "js": a POST that declares [application/javascript]. *)
Lemma Unmarshal_unsupported_content_type_witness :
  reqconv.Unmarshal ascending form.initialVars sample.decoders
    {| Method := "POST"; ContentType := "application/javascript";
       URLQuery := ∅; URLQueryErr := None; PostBody := ∅; PostBodyErr := None;
       MultipartBody := fun _ => inr (External "not multipart");
       Body := inl "..." |}
    sample.Params sample.withDefault
  = (sample.withDefault,
     Failed (Errorf "unsupported content type: %s" [AString "application/javascript"])).
Proof.
  apply (proj2 (Unmarshal_unsupported_content_type ascending form.initialVars
           sample.decoders
           {| Method := "POST"; ContentType := "application/javascript";
              URLQuery := ∅; URLQueryErr := None; PostBody := ∅; PostBodyErr := None;
              MultipartBody := fun _ => inr (External "not multipart");
              Body := inl "..." |}
           sample.Params sample.withDefault
           ltac:(simpl; intros [H|[H|[H|[H|[]]]]]; discriminate))
         "application/javascript").
  - discriminate.
  - reflexivity.
  - unfold recognizedTypes; simpl; intros [H|[H|[H|[H|[]]]]]; discriminate.
Defined.

(** ** The tests of decode_test.go, run on the model *)

Example TestUnpack_GET_url_encode :
  form.UnpackWithOption ascending form.initialVars
    (sample.request "GET"
       [("q", ["golang"]); ("int", ["233"]); ("float", ["3.14159"]); ("bool", ["true"]);
        ("array", ["1"; "2"; "3"]); ("default", ["888"])] [])
    sample.Params
    [VString ""; VInt 0; VFloat (S754_zero false); VBool false; VSlice []; VString ""]
    form.Query
  = ([VString "golang"; VInt 233; VFloat (S754_finite false 7074231776675438 (-51));
      VBool true; VSlice [VInt 1; VInt 2; VInt 3]; VString "888"], ok).
Proof. vm_compute. reflexivity. Qed.

Example TestUnpack_POST_body_encode :
  form.UnpackWithOption descending form.initialVars
    (sample.request "POST" [("default", ["888"])]
       [("q", ["golang"]); ("int", ["233"]); ("float", ["3.14159"]); ("bool", ["true"]);
        ("array", ["1"; "2"; "3"])])
    sample.Params sample.withDefault form.Body
  = ([VString "golang"; VInt 233; VFloat (S754_finite false 7074231776675438 (-51));
      VBool true; VSlice [VInt 1; VInt 2; VInt 3]; VString "2333"], ok).
Proof. vm_compute. reflexivity. Qed.

Example TestUnpack_POST_body_mixes_url_encode :
  form.UnpackWithOption descending form.initialVars
    (sample.request "POST" [("q", ["rust"]); ("default", ["888"])]
       [("q", ["golang"]); ("int", ["233"]); ("float", ["3.14159"]); ("bool", ["true"]);
        ("array", ["1"; "2"; "3"]); ("default", ["999"])])
    sample.Params sample.withDefault form.Mixed
  = ([VString "rust"; VInt 233; VFloat (S754_finite false 7074231776675438 (-51));
      VBool true; VSlice [VInt 1; VInt 2; VInt 3]; VString "888"], ok).
Proof. vm_compute. reflexivity. Qed.

(** "single file" of TestUnpackMultipart. *)
Example TestUnpackMultipart_single_file :
  form.UnpackWithOption ascending form.initialVars
    {| Method := "POST";
       ContentType := "multipart/form-data; boundary=----WebKitFormBoundarykhWusB7Rx4ybHQtA";
       URLQuery := ∅; URLQueryErr := None; PostBody := ∅; PostBodyErr := None;
       MultipartBody := fun _ =>
         inl ({["hello" := ["world"]]},
              {["file" := [{| Filename := "hello.txt"; Size := 13 |}]]});
       Body := inl "" |}
    [ sample.field "Val" (Basic Tstring) [("json", "hello")];
      sample.field "File" form.fileHeaderPtrType [("json", "file")];
      sample.field "Files" (SliceOf form.fileHeaderPtrType) [("json", "files")] ]
    [VString ""; VFileHeader None; VSlice []] form.Multipart
  = ([VString "world"; VFileHeader (Some {| Filename := "hello.txt"; Size := 13 |});
      VSlice []], ok).
Proof. vm_compute. reflexivity. Qed.

(** * Further properties of the binder and of the dispatcher *)

(** ** The loops, slot by slot *)

Lemma insert_lookup_agree {A : Type} (l1 l2 : list A) (i : nat) (x : A) :
  l1 !! i = l2 !! i -> <[i := x]> l1 !! i = <[i := x]> l2 !! i.
Proof.
  intros Heq. destruct (l1 !! i) as [y|] eqn:H1; symmetry in Heq.
  - rewrite !list_lookup_insert_eq; [done|by eapply lookup_lt_Some..].
  - apply lookup_ge_None in H1, Heq. by rewrite !list_insert_ge, !(proj2 (lookup_ge_None _ _)).
Qed.

Section slots.

Context {A : Type} (coerce : type -> bool -> A -> outcome val).

(** The loop over the values of a name reads and writes the slot of its
    field only. *)
Lemma bindAll_local name f values st1 st2 :
  st1 !! slot f = st2 !! slot f ->
  (form.bindAll coerce name f values st1).2 = (form.bindAll coerce name f values st2).2
  /\ (form.bindAll coerce name f values st1).1 !! slot f
     = (form.bindAll coerce name f values st2).1 !! slot f.
Proof.
  revert st1 st2; induction values as [|value values IH]; intros st1 st2 Heq; simpl;
    [done|].
  destruct (kindOf (typ f)); simpl;
    try (destruct (coerce (typ f) (canSet f) value); simpl;
         [by apply IH, insert_lookup_agree|done..]).
  destruct (Elem (typ f)) as [et|]; simpl; [|done].
  destruct (coerce et true value); simpl; [|done..].
  destruct (canSet f); simpl; [|done].
  rewrite Heq. by apply IH, insert_lookup_agree.
Qed.

(** Two loops on different slots commute when both end well. *)
Lemma bindAll_commute name1 f1 values1 name2 f2 values2 st s1 s12 :
  slot f1 ≠ slot f2 ->
  form.bindAll coerce name1 f1 values1 st = (s1, ok) ->
  form.bindAll coerce name2 f2 values2 s1 = (s12, ok) ->
  exists s2,
    form.bindAll coerce name2 f2 values2 st = (s2, ok)
    /\ form.bindAll coerce name1 f1 values1 s2 = (s12, ok).
Proof.
  intros Hne H1 H2.
  pose proof (bindAll_other coerce name1 f1 values1 st (slot f2) (not_eq_sym Hne)) as Ho1.
  rewrite H1 in Ho1; simpl in Ho1.
  destruct (bindAll_local name2 f2 values2 s1 st Ho1) as [Hr2 Hs2].
  rewrite H2 in Hr2, Hs2; simpl in Hr2, Hs2.
  destruct (form.bindAll coerce name2 f2 values2 st) as [s2 r2] eqn:H2'.
  simpl in Hr2, Hs2. subst r2.
  pose proof (bindAll_other coerce name2 f2 values2 st (slot f1) Hne) as Ho2.
  rewrite H2' in Ho2; simpl in Ho2.
  destruct (bindAll_local name1 f1 values1 s2 st Ho2) as [Hr1 Hs1].
  rewrite H1 in Hr1, Hs1; simpl in Hr1, Hs1.
  destruct (form.bindAll coerce name1 f1 values1 s2) as [s21 r1] eqn:H1'.
  simpl in Hr1, Hs1. subst r1.
  exists s2. split; [done|]. rewrite H1'. f_equal. apply list_eq. intros k.
  assert (Ha : k ≠ slot f1 -> s21 !! k = s2 !! k).
  { intros Hk. by rewrite <- (bindAll_other coerce name1 f1 values1 s2 k Hk), H1'. }
  assert (Hb : k ≠ slot f2 -> s12 !! k = s1 !! k).
  { intros Hk. by rewrite <- (bindAll_other coerce name2 f2 values2 s1 k Hk), H2. }
  assert (Hc : k ≠ slot f1 -> s1 !! k = st !! k).
  { intros Hk. by rewrite <- (bindAll_other coerce name1 f1 values1 st k Hk), H1. }
  assert (Hd : k ≠ slot f2 -> s2 !! k = st !! k).
  { intros Hk. by rewrite <- (bindAll_other coerce name2 f2 values2 st k Hk), H2'. }
  destruct (decide (k = slot f1)) as [Hk1|Hk1].
  - subst k. by rewrite Hs1, Hb.
  - destruct (decide (k = slot f2)) as [Hk2|Hk2].
    + subst k. by rewrite Ha, Hs2.
    + by rewrite Ha, Hb, Hc, Hd.
Qed.

(** When distinct names designate distinct slots, a run that ends well
    ends alike in whatever order the entries are visited. *)
Lemma bindEntries_Permutation fields l l' st st' :
  (forall n n' f f',
     fields !! n = Some f -> fields !! n' = Some f' -> slot f = slot f' -> n = n') ->
  NoDup l.*1 ->
  l ≡ₚ l' ->
  form.bindEntries coerce fields l st = (st', ok) ->
  form.bindEntries coerce fields l' st = (st', ok).
Proof.
  intros Hinj Hnd Hperm. revert st Hnd.
  induction Hperm as [|[n vs] l l' Hperm IH|[n vs] [m ws] l|l l' l'' Hp1 IH1 Hp2 IH2];
    intros st Hnd.
  - done.
  - rewrite fmap_cons in Hnd. apply NoDup_cons in Hnd as [_ Hnd]. simpl.
    destruct (fields !! n) as [f|]; [|by apply IH].
    destruct (form.bindAll coerce n f vs st) as [s1 [[]| |]]; [by apply IH|done..].
  - rewrite !fmap_cons in Hnd. simpl in Hnd.
    apply NoDup_cons in Hnd as [Hnm _].
    assert (Hne : m ≠ n) by (intros ->; apply Hnm; left).
    simpl.
    destruct (fields !! n) as [f|] eqn:Hf, (fields !! m) as [g|] eqn:Hg; try done.
    destruct (form.bindAll coerce m g ws st) as [s1 [[]| |]] eqn:H1; try done.
    destruct (form.bindAll coerce n f vs s1) as [s12 [[]| |]] eqn:H2; try done.
    intros Hrest.
    assert (Hslots : slot g ≠ slot f) by (intros Heq; apply Hne; by eapply Hinj).
    destruct (bindAll_commute m g ws n f vs st s1 s12 Hslots H1 H2) as (s2 & -> & ->).
    done.
  - intros Hrun. apply IH2; [|by apply IH1].
    by rewrite <- Hp1.
Qed.

End slots.

(** ** X1: the order of the keys does not matter to a call that ends well *)

Lemma range_Permutation (sched1 sched2 : Schedule) {A : Type} (m : gmap string A) :
  range sched1 m ≡ₚ range sched2 m.
Proof. by rewrite (range_perm sched1 A m), (range_perm sched2 A m). Qed.

Lemma buildFields_names_of_slots tagKey sf n n' f f' :
  form.buildFields tagKey sf !! n = Some f ->
  form.buildFields tagKey sf !! n' = Some f' ->
  slot f = slot f' -> n = n'.
Proof. intros Hf Hf' Heq. by eapply buildFields_slot_inj. Qed.

Lemma unpack_order sched1 sched2 tagKey sf (src : Values) st st' :
  form.unpack sched1 (form.buildFields tagKey sf) src st = (st', ok) ->
  form.unpack sched2 (form.buildFields tagKey sf) src st = (st', ok).
Proof.
  unfold form.unpack. apply bindEntries_Permutation.
  - apply buildFields_names_of_slots.
  - apply range_NoDup.
  - apply range_Permutation.
Qed.

Lemma unpackMultipart_order sched1 sched2 tagKey sf (m : Files) st st' :
  form.unpackMultipart sched1 (form.buildFields tagKey sf) m st = (st', ok) ->
  form.unpackMultipart sched2 (form.buildFields tagKey sf) m st = (st', ok).
Proof.
  unfold form.unpackMultipart. apply bindEntries_Permutation.
  - apply buildFields_names_of_slots.
  - apply range_NoDup.
  - apply range_Permutation.
Qed.

(** X1. A call of [UnpackWithOption] that returns [nil] under one order of
    visiting the keys of its maps returns [nil] under every order, and leaves
    the same data in the struct: the outcome of a successful bind does not
    depend on the iteration order of the maps, for every strategy. *)
Theorem UnpackWithOption_success_is_order_independent
    (sched1 sched2 : Schedule) (vars : form.Vars) (r : Request)
    (sf : list StructField) (st st' : store) (option : form.Option) :
  form.UnpackWithOption sched1 vars r sf st option = (st', ok) ->
  form.UnpackWithOption sched2 vars r sf st option = (st', ok).
Proof.
  unfold form.UnpackWithOption.
  set (parsed := if (option =? form.Multipart) || (option =? form.MixedMultipart)
                 then ParseMultipartForm r (form.maxMemory vars) else ParseForm r).
  destruct parsed as [p [e|]]; [done|].
  destruct (option =? form.Query); [apply unpack_order|].
  destruct (option =? form.Mixed); [apply unpack_order|].
  assert (Hmp : forall src : Values,
    (let res := form.unpack sched1 (form.buildFields (form.fieldTag vars) sf) src st in
     match res with
     | (s1, Done _) =>
       match MultipartForm p with
       | Some files =>
         form.unpackMultipart sched1 (form.buildFields (form.fieldTag vars) sf) files s1
       | None => (s1, Panicked)
       end
     | stop => stop
     end) = (st', ok) ->
    (let res := form.unpack sched2 (form.buildFields (form.fieldTag vars) sf) src st in
     match res with
     | (s1, Done _) =>
       match MultipartForm p with
       | Some files =>
         form.unpackMultipart sched2 (form.buildFields (form.fieldTag vars) sf) files s1
       | None => (s1, Panicked)
       end
     | stop => stop
     end) = (st', ok)).
  { intros src. cbv zeta.
    destruct (form.unpack sched1 _ src st) as [s1 [[]| |]] eqn:H1; try done.
    rewrite (unpack_order sched1 sched2 _ _ _ _ _ H1).
    destruct (MultipartForm p); [apply unpackMultipart_order|done]. }
  destruct (option =? form.Multipart); [exact (Hmp (PostForm p))|].
  destruct (option =? form.MixedMultipart); [exact (Hmp (Form p))|].
  apply unpack_order.
Qed.

Lemma UnpackWithOption_success_is_order_independent_witness :
  form.UnpackWithOption descending form.initialVars
    (sample.request "POST" [("q", ["rust"]); ("default", ["888"])]
       [("q", ["golang"]); ("int", ["233"]); ("array", ["1"; "2"; "3"])])
    sample.Params sample.withDefault form.Mixed
  = ([VString "rust"; VInt 233; VFloat (S754_zero false); VBool false;
      VSlice [VInt 1; VInt 2; VInt 3]; VString "888"], ok).
Proof.
  apply (UnpackWithOption_success_is_order_independent ascending descending).
  vm_compute. reflexivity.
Defined.

(** ** X2: an error of the binder names the key that failed *)

Section failures.

Context {A : Type} (coerce : type -> bool -> A -> outcome val).

Lemma bindAll_Failed name f values st st' e :
  form.bindAll coerce name f values st = (st', Failed e) ->
  exists value err,
    value ∈ values
    /\ coerceFor coerce f value = Failed err
    /\ e = Errorf "%s: %v" [AString name; AError err].
Proof.
  revert st; induction values as [|value values IH]; intros st; simpl; [done|].
  intros Hrun.
  assert (Hcases :
    (exists err, coerceFor coerce f value = Failed err
                 /\ e = Errorf "%s: %v" [AString name; AError err])
    \/ (exists s, form.bindAll coerce name f values s = (st', Failed e))).
  { unfold coerceFor. destruct (kindOf (typ f)); simpl in *;
      try (destruct (coerce (typ f) (canSet f) value) as [x|err|];
           [right; eauto|left; exists err; split; [done|congruence]|done]).
    destruct (Elem (typ f)) as [et|]; [|done].
    destruct (coerce et true value) as [x|err|];
      [|left; exists err; split; [done|congruence]|done].
    destruct (canSet f); [right; eauto|done]. }
  destruct Hcases as [(err & Hc & ->)|[s Hs]].
  - exists value, err. split_and!; [left|done|done].
  - apply IH in Hs as (v & err & Hv & Hc & ->).
    exists v, err. split_and!; [by right|done|done].
Qed.

Lemma bindEntries_Failed fields entries st st' e :
  form.bindEntries coerce fields entries st = (st', Failed e) ->
  exists name values f value err,
    (name, values) ∈ entries
    /\ fields !! name = Some f
    /\ value ∈ values
    /\ coerceFor coerce f value = Failed err
    /\ e = Errorf "%s: %v" [AString name; AError err].
Proof.
  revert st; induction entries as [|[name values] entries IH]; intros st; simpl; [done|].
  destruct (fields !! name) as [f|] eqn:Hf.
  - destruct (form.bindAll coerce name f values st) as [s1 [[]| |]] eqn:Hall.
    + intros (n & vs & g & v & err & Hin & ?)%IH.
      exists n, vs, g, v, err. split; [by right|done].
    + intros [= <- <-].
      apply bindAll_Failed in Hall as (v & err & Hv & Hc & ->).
      exists name, values, f, v, err. split_and!; [left|done..].
    + done.
  - intros (n & vs & g & v & err & Hin & ?)%IH.
    exists n, vs, g, v, err. split; [by right|done].
Qed.

End failures.

(** X2. When [unpack] returns an error, the error is [key: cause], where
    [key] is a key of the value source that is the effective name of a field
    and [cause] is the error of [populate] for one of the values of that key
    (coerced into the field, or into an element for a slice field). *)
Theorem unpack_error_names_the_failing_key
    (sched : Schedule) (tagKey : string) (sf : list StructField) (src : Values)
    (st st' : store) (e : error) :
  form.unpack sched (form.buildFields tagKey sf) src st = (st', Failed e) ->
  exists key values value i f cause,
    src !! key = Some values
    /\ value ∈ values
    /\ sf !! i = Some f
    /\ form.fieldName tagKey f = key
    /\ e = Errorf "%s: %v" [AString key; AError cause]
    /\ (form.populate (Type_ f) (String.eqb (PkgPath f) "") value = Failed cause
        \/ exists et, kindOf (Type_ f) = reflect.Slice /\ Elem (Type_ f) = Some et
                      /\ form.populate et true value = Failed cause).
Proof.
  unfold form.unpack.
  intros (key & values & v & value & cause & Hin & Hv & Hval & Hc & ->)%bindEntries_Failed.
  apply range_lookup in Hin.
  apply buildFields_some in Hv as (i & f & Hi & Hname & ->).
  exists key, values, value, i, f, cause. split_and!; try done.
  unfold coerceFor in Hc. simpl in Hc.
  destruct (kindOf (Type_ f)) eqn:Hk; try (by left).
  destruct (Elem (Type_ f)) as [et|]; [|done].
  right. by exists et.
Qed.

Lemma unpack_error_names_the_failing_key_witness :
  exists key values value i f cause,
    (list_to_map [("q", ["golang"]); ("int", ["2x"])] : Values) !! key = Some values
    /\ value ∈ values
    /\ sample.Params !! i = Some f
    /\ form.fieldName "json" f = key
    /\ Errorf "%s: %v" [AString "int"; AError (NumErr (strconv.syntaxError "ParseInt" "2x"))]
       = Errorf "%s: %v" [AString key; AError cause]
    /\ (form.populate (Type_ f) (String.eqb (PkgPath f) "") value = Failed cause
        \/ exists et, kindOf (Type_ f) = reflect.Slice /\ Elem (Type_ f) = Some et
                      /\ form.populate et true value = Failed cause).
Proof.
  apply (unpack_error_names_the_failing_key ascending "json" sample.Params
           (list_to_map [("q", ["golang"]); ("int", ["2x"])]) sample.withDefault
           sample.withDefault).
  vm_compute. reflexivity.
Defined.

(** ** X3: two fields of one effective name *)

Lemma buildFieldsFrom_some_last tagKey sf i fields name v :
  form.buildFieldsFrom tagKey i sf fields !! name = Some v ->
  (fields !! name = Some v /\ forall f, f ∈ sf -> form.fieldName tagKey f ≠ name)
  \/ exists j f,
       sf !! j = Some f /\ form.fieldName tagKey f = name /\ v = Field (i + j) f
       /\ forall j' f', (j < j')%nat -> sf !! j' = Some f' ->
            form.fieldName tagKey f' ≠ name.
Proof.
  revert i fields; induction sf as [|f0 sf IH]; intros i fields; simpl.
  - intros Hv. left. split; [done|]. intros f Hf. by apply elem_of_nil in Hf.
  - intros Hv. apply IH in Hv as [[Hv Hno]|(j & f & Hj & Hn & -> & Hlast)].
    + destruct (decide (form.fieldName tagKey f0 = name)) as [Heq|Hne].
      * right. exists 0%nat, f0. rewrite <- Heq, lookup_insert_eq in Hv.
        injection Hv as <-. rewrite Nat.add_0_r. split_and!; try done.
        intros j' f' Hlt Hj'. destruct j' as [|j']; [lia|]. simpl in Hj'.
        apply Hno, list_elem_of_lookup. eauto.
      * left. rewrite lookup_insert_ne in Hv by done. split; [done|].
        intros f [->|Hf]%elem_of_cons; [done|by apply Hno].
    + right. exists (S j), f. split_and!; [done|done|f_equal; lia|].
      intros j' f' Hlt Hj'. destruct j' as [|j']; [lia|]. simpl in Hj'.
      apply (Hlast j'); [lia|done].
Qed.

(** X3. When two fields have the same effective name, the map of fields
    holds the later one: whatever the value source, and however the call
    ends, [unpack] leaves the earlier field as it was. *)
Theorem shadowed_field_is_never_bound
    (sched : Schedule) (tagKey : string) (sf : list StructField) (src : Values)
    (st : store) (i j : nat) (f g : StructField) :
  sf !! i = Some f ->
  sf !! j = Some g ->
  (i < j)%nat ->
  form.fieldName tagKey f = form.fieldName tagKey g ->
  (form.unpack sched (form.buildFields tagKey sf) src st).1 !! i = st !! i.
Proof.
  intros Hi Hj Hlt Heq. unfold form.unpack. apply bindEntries_other.
  intros name values v _ Hv Hslot.
  apply buildFieldsFrom_some_last in Hv as [[Hv _]|(k & h & Hk & Hn & -> & Hlast)];
    [done|].
  simpl in Hslot. subst k. rewrite Hi in Hk. injection Hk as <-.
  apply (Hlast j g); [done|done|congruence].
Qed.

(** Two fields tagged [id]: the first keeps its datum. *)
Lemma shadowed_field_is_never_bound_witness :
  (form.unpack ascending
     (form.buildFields "json"
        [sample.field "A" (Basic Tstring) [("json", "id")];
         sample.field "B" (Basic Tstring) [("json", "id")]])
     {["id" := ["7"]]} [VString "a"; VString "b"]).1 !! 0%nat
  = [VString "a"; VString "b"] !! 0%nat.
Proof.
  apply (shadowed_field_is_never_bound ascending "json" _ _ _ 0 1
           (sample.field "A" (Basic Tstring) [("json", "id")])
           (sample.field "B" (Basic Tstring) [("json", "id")]));
    [reflexivity | reflexivity | lia | reflexivity].
Defined.

(** ** X4, X5: one field, all the values of its key *)

(** In a run that ends well over a struct whose effective names are
    distinct, the slot of a field is left as the loop over the values of its
    name leaves it. *)
Lemma bindEntries_field {A : Type} (coerce : type -> bool -> A -> outcome val)
    sched tagKey sf (src : gmap string (list A)) st st' i f values :
  NoDup (form.fieldName tagKey <$> sf) ->
  sf !! i = Some f ->
  src !! form.fieldName tagKey f = Some values ->
  form.bindEntries coerce (form.buildFields tagKey sf) (range sched src) st = (st', ok) ->
  exists st1 st2,
    form.bindAll coerce (form.fieldName tagKey f) (Field i f) values st1 = (st2, ok)
    /\ st1 !! i = st !! i
    /\ length st1 = length st
    /\ st' !! i = st2 !! i.
Proof.
  intros Hnd Hi Hsrc Hrun.
  pose proof (buildFields_unique tagKey sf i f Hnd Hi) as Hf.
  apply (bindEntries_slot coerce (form.buildFields tagKey sf) (range sched src)
           (form.fieldName tagKey f) values (Field i f) st st'); try done.
  - apply range_NoDup.
  - by apply range_lookup.
  - intros name' f' Hne Hf' Hslot. apply Hne.
    by eapply buildFields_slot_inj.
Qed.

(** X4. A field that is no slice, bound from a key with several values,
    holds after a successful [unpack] the datum of the last of them: the
    values are coerced and written one after the other. *)
Theorem scalar_field_holds_last_value
    (sched : Schedule) (tagKey : string) (sf : list StructField) (src : Values)
    (st st' : store) (i : nat) (f : StructField) (values : list string)
    (value : string) :
  NoDup (form.fieldName tagKey <$> sf) ->
  length st = length sf ->
  sf !! i = Some f ->
  kindOf (Type_ f) ≠ reflect.Slice ->
  src !! form.fieldName tagKey f = Some values ->
  last values = Some value ->
  form.unpack sched (form.buildFields tagKey sf) src st = (st', ok) ->
  exists x, form.populate (Type_ f) true value = Done x /\ st' !! i = Some x.
Proof.
  intros Hnd Hlen Hi Hk Hsrc Hlast Hrun.
  eapply bindEntries_field in Hrun as (st1 & st2 & Hall & _ & Hlen1 & Hst'); [|done..].
  apply (bindAll_scalar _ _ _ _ value) in Hall as (x & Hx & Hst2); simpl; try done.
  - exists x. simpl in Hx, Hst2. split; [by eapply populate_Done_settable|congruence].
  - rewrite Hlen1, Hlen. by eapply lookup_lt_Some.
Qed.

Lemma scalar_field_holds_last_value_witness :
  exists x,
    form.populate (Basic Tint) true "3" = Done x
    /\ [VString ""; VInt 3; VFloat (S754_zero false); VBool false; VSlice [];
        VString "2333"] !! 1%nat = Some x.
Proof.
  apply (scalar_field_holds_last_value ascending "json" sample.Params
           {["int" := ["1"; "2"; "3"]]} sample.withDefault _ 1
           (sample.field "Int" (Basic Tint) [("json", "int")]) ["1"; "2"; "3"] "3").
  - apply (bool_decide_unpack _). vm_compute. exact I.
  - reflexivity.
  - reflexivity.
  - discriminate.
  - vm_compute. reflexivity.
  - reflexivity.
  - vm_compute. reflexivity.
Defined.

Section totality.

Context {A : Type} (coerce : type -> bool -> A -> outcome val).

Lemma bindAll_ok name f values st :
  canSet f = true ->
  (forall value, value ∈ values -> exists x, coerceFor coerce f value = Done x) ->
  (form.bindAll coerce name f values st).2 = ok.
Proof.
  intros Hset. revert st; induction values as [|value values IH]; intros st Hall;
    [done|].
  destruct (Hall value) as [x Hx]; [left|].
  assert (Htl : forall v, v ∈ values -> exists x, coerceFor coerce f v = Done x)
    by (intros v Hv; apply Hall; by right).
  unfold coerceFor in Hx. simpl.
  destruct (kindOf (typ f)); try (rewrite Hx; by apply IH).
  destruct (Elem (typ f)) as [et|]; [|done].
  rewrite Hx, Hset. by apply IH.
Qed.

Lemma bindEntries_ok fields entries st :
  (forall name values f value,
     (name, values) ∈ entries -> fields !! name = Some f -> value ∈ values ->
     canSet f = true /\ exists x, coerceFor coerce f value = Done x) ->
  (form.bindEntries coerce fields entries st).2 = ok.
Proof.
  revert st; induction entries as [|[name values] entries IH]; intros st Hall; [done|].
  assert (Htl : forall n vs f v,
     (n, vs) ∈ entries -> fields !! n = Some f -> v ∈ vs ->
     canSet f = true /\ exists x, coerceFor coerce f v = Done x)
    by (intros n vs f v Hin; apply Hall; by right).
  simpl. destruct (fields !! name) as [f|] eqn:Hf; [|by apply IH].
  assert (Hok : (form.bindAll coerce name f values st).2 = ok).
  { destruct values as [|v0 values]; [done|].
    apply bindAll_ok.
    - eapply (Hall name (v0 :: values) f v0); [left|done|left].
    - intros v Hv. eapply (Hall name (v0 :: values) f v); [left|done|done]. }
  destruct (form.bindAll coerce name f values st) as [s1 r]. simpl in Hok. subst r.
  by apply IH.
Qed.

(** A panic needs a field that cannot be set. *)
Lemma bindAll_no_panic name f values st :
  canSet f = true ->
  (forall t value, coerce t true value ≠ Panicked) ->
  (kindOf (typ f) = reflect.Slice -> is_Some (Elem (typ f))) ->
  (form.bindAll coerce name f values st).2 ≠ Panicked.
Proof.
  intros Hset Hco Hel. revert st; induction values as [|value values IH]; intros st;
    [done|].
  simpl. rewrite Hset.
  destruct (kindOf (typ f)) eqn:Hk;
    try (pose proof (Hco (typ f) value);
         destruct (coerce (typ f) true value); [apply IH|done|done]).
  destruct Hel as [et ->]; [done|].
  pose proof (Hco et value).
  destruct (coerce et true value); [apply IH|done|done].
Qed.

Lemma bindEntries_no_panic fields entries st :
  (forall name f, fields !! name = Some f ->
     canSet f = true /\ (kindOf (typ f) = reflect.Slice -> is_Some (Elem (typ f)))) ->
  (forall t value, coerce t true value ≠ Panicked) ->
  (form.bindEntries coerce fields entries st).2 ≠ Panicked.
Proof.
  intros Hfields Hco.
  revert st; induction entries as [|[name values] entries IH]; intros st; [done|].
  simpl. destruct (fields !! name) as [f|] eqn:Hf; [|by apply IH].
  destruct (Hfields name f Hf) as [Hset Hel].
  pose proof (bindAll_no_panic name f values st Hset Hco Hel) as Hnp.
  destruct (form.bindAll coerce name f values st) as [s1 [[]| |]]; [apply IH|done|done].
Qed.

End totality.

Lemma kindOf_Slice_Elem t : kindOf t = reflect.Slice -> is_Some (Elem t).
Proof.
  induction t as [b| | | | | | | | | |name u IH]; simpl; try done; eauto.
  by destruct b.
Qed.

(** X5. A struct all of whose fields are exported strings or slices of
    strings binds from every value source: [unpack] returns [nil], whatever
    the keys, the values and the order of the visit. *)
Theorem text_fields_always_bind
    (sched : Schedule) (tagKey : string) (sf : list StructField) (src : Values)
    (st : store) :
  Forall textField sf ->
  (form.unpack sched (form.buildFields tagKey sf) src st).2 = ok.
Proof.
  intros Htext. unfold form.unpack. apply bindEntries_ok.
  intros name values v value _ Hv _.
  apply buildFields_some in Hv as (i & f & Hi & _ & ->).
  rewrite Forall_forall in Htext.
  destruct (Htext f) as [Hpkg Hkind]; [apply list_elem_of_lookup; eauto|].
  unfold coerceFor. simpl. rewrite Hpkg. split; [done|].
  destruct Hkind as [Hk|(et & Hk & He & Hek)].
  - rewrite Hk. exists (VString value). by apply populate_String.
  - rewrite Hk, He. exists (VString value). by apply populate_String.
Qed.

Lemma text_fields_always_bind_witness :
  (form.unpack descending
     (form.buildFields "json"
        [sample.field "Q" (Basic Tstring) [("json", "q")];
         sample.field "Tags" (SliceOf (Basic Tstring)) []])
     (<["q" := ["golang"; ""]]> {["tags" := ["a"; "not-a-number"]]})
     [VString ""; VSlice []]).2 = ok.
Proof.
  apply (text_fields_always_bind descending "json").
  constructor; [split; [reflexivity|left; reflexivity]|].
  constructor; [|constructor].
  split; [reflexivity|right; exists (Basic Tstring); by split_and!].
Defined.

(** ** X6: no panic on exported fields *)

Lemma buildFields_exported tagKey sf name f :
  Forall (fun f => PkgPath f = "") sf ->
  form.buildFields tagKey sf !! name = Some f ->
  canSet f = true /\ (kindOf (typ f) = reflect.Slice -> is_Some (Elem (typ f))).
Proof.
  intros Hexp (i & g & Hi & _ & ->)%buildFields_some.
  rewrite Forall_forall in Hexp. simpl.
  rewrite (Hexp g) by (apply list_elem_of_lookup; eauto).
  split; [done|apply kindOf_Slice_Elem].
Qed.

Lemma populate_settable_no_panic t value : form.populate t true value ≠ Panicked.
Proof. unfold form.populate. destruct (kindOf t); case_matches; done. Qed.

Lemma populatePart_settable_no_panic t part : form.populatePart t true part ≠ Panicked.
Proof. unfold form.populatePart. by case_bool_decide. Qed.

Lemma unpack_no_panic sched tagKey sf (src : Values) st :
  Forall (fun f => PkgPath f = "") sf ->
  (form.unpack sched (form.buildFields tagKey sf) src st).2 ≠ Panicked.
Proof.
  intros Hexp. apply bindEntries_no_panic.
  - intros name f. by apply buildFields_exported.
  - apply populate_settable_no_panic.
Qed.

Lemma unpackMultipart_no_panic sched tagKey sf (m : Files) st :
  Forall (fun f => PkgPath f = "") sf ->
  (form.unpackMultipart sched (form.buildFields tagKey sf) m st).2 ≠ Panicked.
Proof.
  intros Hexp. apply bindEntries_no_panic.
  - intros name f. by apply buildFields_exported.
  - apply populatePart_settable_no_panic.
Qed.

(** X6. Into a struct all of whose fields are exported, [UnpackWithOption]
    never panics: under every strategy, for every request and every order of
    the visit, it returns [nil] or an error. *)
Theorem exported_fields_never_panic
    (sched : Schedule) (vars : form.Vars) (r : Request) (sf : list StructField)
    (st : store) (option : form.Option) :
  Forall (fun f => PkgPath f = "") sf ->
  (form.UnpackWithOption sched vars r sf st option).2 ≠ Panicked.
Proof.
  intros Hexp. unfold form.UnpackWithOption.
  assert (Hthen : forall (src : Values) (files : Files),
    (let res := form.unpack sched (form.buildFields (form.fieldTag vars) sf) src st in
     match res with
     | (s1, Done _) =>
       form.unpackMultipart sched (form.buildFields (form.fieldTag vars) sf) files s1
     | stop => stop
     end).2 ≠ Panicked).
  { intros src files. cbv zeta.
    pose proof (unpack_no_panic sched (form.fieldTag vars) sf src st Hexp) as Hu.
    destruct (form.unpack sched _ src st) as [s1 [[]| |]]; [|done..].
    by apply unpackMultipart_no_panic. }
  destruct ((option =? form.Multipart) || (option =? form.MixedMultipart)) eqn:Hmp.
  - unfold ParseMultipartForm. destruct (ParseForm r) as [p0 e0].
    destruct (MultipartBody r (form.maxMemory vars)) as [[vals files]|err]; [|done].
    destruct e0; [done|]. cbn [MultipartForm PostForm Form].
    destruct (option =? form.Query); [by apply unpack_no_panic|].
    destruct (option =? form.Mixed); [by apply unpack_no_panic|].
    destruct (option =? form.Multipart); [exact (Hthen _ files)|].
    destruct (option =? form.MixedMultipart); [exact (Hthen _ files)|].
    by apply unpack_no_panic.
  - apply orb_false_iff in Hmp as [-> ->].
    destruct (ParseForm r) as [p [e|]]; [done|].
    destruct (option =? form.Query); [by apply unpack_no_panic|].
    destruct (option =? form.Mixed); by apply unpack_no_panic.
Qed.

Lemma exported_fields_never_panic_witness :
  (form.UnpackWithOption ascending form.initialVars
     (sample.request "POST" [] [("int", ["x"])])
     sample.Params sample.withDefault form.Body).2 ≠ Panicked.
Proof.
  apply (exported_fields_never_panic ascending form.initialVars
           (sample.request "POST" [] [("int", ["x"])])
           sample.Params sample.withDefault form.Body).
  repeat (constructor; [reflexivity|]). constructor.
Defined.

(** ** X7, X8: file parts *)

Section preserved.

Context {A : Type} (coerce : type -> bool -> A -> outcome val).

(** A slot that every visited entry leaves as it finds it is left as it
    was. *)
Lemma bindEntries_preserves fields entries st j :
  (forall name values f s,
     (name, values) ∈ entries -> fields !! name = Some f ->
     (form.bindAll coerce name f values s).1 !! j = s !! j) ->
  (form.bindEntries coerce fields entries st).1 !! j = st !! j.
Proof.
  revert st; induction entries as [|[name values] entries IH]; intros st Hall; [done|].
  assert (Htl : forall n vs f s,
     (n, vs) ∈ entries -> fields !! n = Some f ->
     (form.bindAll coerce n f vs s).1 !! j = s !! j)
    by (intros n vs f s Hin; apply Hall; by right).
  simpl. destruct (fields !! name) as [f|] eqn:Hf; [|by apply IH].
  pose proof (Hall name values f st (list_elem_of_here _ _) Hf) as Hhd.
  destruct (form.bindAll coerce name f values st) as [s1 [[]| |]]; simpl in *;
    rewrite ?IH; done.
Qed.

End preserved.

Lemma populatePart_Done t settable part x :
  form.populatePart t settable part = Done x ->
  t = form.fileHeaderPtrType /\ x = VFileHeader (Some part).
Proof.
  unfold form.populatePart. case_bool_decide as Ht; [|done].
  destruct settable; [|done]. by intros [= <-].
Qed.

(** X7. A file part under a key that names a field which is neither a
    [*multipart.FileHeader] nor a slice of it makes [unpackMultipart] fail
    (it is not skipped), and the field keeps its datum. *)
Theorem file_part_for_other_field_fails
    (sched : Schedule) (tagKey : string) (sf : list StructField) (m : Files)
    (st : store) (i : nat) (f : StructField) (part : FileHeader)
    (parts : list FileHeader) :
  NoDup (form.fieldName tagKey <$> sf) ->
  sf !! i = Some f ->
  ~ fileType (Type_ f) ->
  m !! form.fieldName tagKey f = Some (part :: parts) ->
  (form.unpackMultipart sched (form.buildFields tagKey sf) m st).2 ≠ ok
  /\ (form.unpackMultipart sched (form.buildFields tagKey sf) m st).1 !! i = st !! i.
Proof.
  intros Hnd Hi Hnot Hm.
  assert (Hfail : forall s,
    (form.bindAll form.populatePart (form.fieldName tagKey f) (Field i f)
       (part :: parts) s).2 ≠ ok
    /\ (form.bindAll form.populatePart (form.fieldName tagKey f) (Field i f)
          (part :: parts) s).1 = s).
  { intros s. simpl. unfold form.populatePart.
    destruct (kindOf (Type_ f)) eqn:Hk;
      try (rewrite bool_decide_eq_false_2 by (intros Heq; apply Hnot; by left); done).
    destruct (Elem (Type_ f)) as [et|] eqn:He; [|done].
    rewrite bool_decide_eq_false_2; [done|].
    intros <-. apply Hnot. by right. }
  split.
  - destruct (form.unpackMultipart sched _ m st) as [st' r] eqn:Hrun. simpl.
    intros ->. unfold form.unpackMultipart in Hrun.
    eapply bindEntries_field in Hrun as (s1 & s2 & Hall & _); [|done..].
    destruct (Hfail s1) as [Hne _]. by rewrite Hall in Hne.
  - unfold form.unpackMultipart. apply bindEntries_preserves.
    intros name values v s Hin Hv.
    destruct (decide (slot v = i)) as [Hslot|Hslot]; [|by apply bindAll_other].
    pose proof (buildFields_unique tagKey sf i f Hnd Hi) as Hf.
    assert (name = form.fieldName tagKey f) as ->
      by (eapply buildFields_slot_inj; [exact Hf|exact Hv|done]).
    rewrite Hf in Hv. injection Hv as <-.
    apply range_lookup in Hin. rewrite Hm in Hin. injection Hin as <-.
    destruct (Hfail s) as [_ ->]. done.
Qed.

(** A file sent under the key of the text field [Val]. *)
Lemma file_part_for_other_field_fails_witness :
  (form.unpackMultipart ascending
     (form.buildFields "json" [sample.field "Val" (Basic Tstring) [("json", "hello")]])
     {["hello" := [{| Filename := "hello.txt"; Size := 13 |}]]} [VString "kept"]).2 ≠ ok
  /\ (form.unpackMultipart ascending
        (form.buildFields "json" [sample.field "Val" (Basic Tstring) [("json", "hello")]])
        {["hello" := [{| Filename := "hello.txt"; Size := 13 |}]]} [VString "kept"]).1
       !! 0%nat = [VString "kept"] !! 0%nat.
Proof.
  apply (file_part_for_other_field_fails ascending "json"
           [sample.field "Val" (Basic Tstring) [("json", "hello")]]
           {["hello" := [{| Filename := "hello.txt"; Size := 13 |}]]} [VString "kept"]
           0 (sample.field "Val" (Basic Tstring) [("json", "hello")])
           {| Filename := "hello.txt"; Size := 13 |} []).
  - apply (bool_decide_unpack _). vm_compute. exact I.
  - reflexivity.
  - intros [H|[H _]]; discriminate.
  - vm_compute. reflexivity.
Defined.

(** X8. After a successful [unpackMultipart] into a struct whose effective
    names are distinct, a field of type [[]*multipart.FileHeader] holds the
    elements it had followed by the handles of its key, in their order, and
    a field of type [*multipart.FileHeader] holds the last handle of its
    key. *)
Theorem file_parts_are_bound_in_order
    (sched : Schedule) (tagKey : string) (sf : list StructField) (m : Files)
    (st st' : store) (i : nat) (f : StructField) (parts : list FileHeader) :
  NoDup (form.fieldName tagKey <$> sf) ->
  length st = length sf ->
  sf !! i = Some f ->
  m !! form.fieldName tagKey f = Some parts ->
  form.unpackMultipart sched (form.buildFields tagKey sf) m st = (st', ok) ->
  (Type_ f = SliceOf form.fileHeaderPtrType -> parts ≠ [] ->
     st' !! i = Some (VSlice (sliceElems (st !! i)
                                ++ ((fun p => VFileHeader (Some p)) <$> parts))))
  /\ (Type_ f = form.fileHeaderPtrType -> forall part, last parts = Some part ->
     st' !! i = Some (VFileHeader (Some part))).
Proof.
  intros Hnd Hlen Hi Hm Hrun. unfold form.unpackMultipart in Hrun.
  eapply bindEntries_field in Hrun as (s1 & s2 & Hall & Hs1 & Hlen1 & Hst'); [|done..].
  assert (Hlt : (slot (Field i f) < length s1)%nat).
  { simpl. rewrite Hlen1, Hlen. by eapply lookup_lt_Some. }
  split.
  - intros Ht Hne.
    apply (bindAll_slice _ _ _ form.fileHeaderPtrType) in Hall
      as (elems & Hco & _ & Hs2); simpl; try (by rewrite Ht); [|done].
    simpl in Hs2. rewrite Hst', Hs2, Hs1 by done. do 3 f_equal.
    clear -Hco. induction Hco as [|p e ps es Hp _ IH]; [done|].
    apply populatePart_Done in Hp as [_ ->]. simpl. by rewrite IH.
  - intros Ht part Hlast.
    apply (bindAll_scalar _ _ _ _ part) in Hall as (x & Hx & Hs2); simpl;
      try done; [|by rewrite Ht].
    simpl in Hx, Hs2. apply populatePart_Done in Hx as [_ ->]. congruence.
Qed.

(** "file array" of TestUnpackMultipart. *)
Lemma file_parts_are_bound_in_order_witness :
  [VSlice [VFileHeader (Some {| Filename := "a.txt"; Size := 13 |});
           VFileHeader (Some {| Filename := "b.txt"; Size := 13 |})]] !! 0%nat
  = Some (VSlice (sliceElems ([VSlice []] !! 0%nat)
            ++ ((fun p => VFileHeader (Some p))
                  <$> [{| Filename := "a.txt"; Size := 13 |};
                       {| Filename := "b.txt"; Size := 13 |}]))).
Proof.
  apply (proj1 (file_parts_are_bound_in_order ascending "json"
           [sample.field "Files" (SliceOf form.fileHeaderPtrType) [("json", "files")]]
           {["files" := [{| Filename := "a.txt"; Size := 13 |};
                         {| Filename := "b.txt"; Size := 13 |}]]}
           [VSlice []] _ 0
           (sample.field "Files" (SliceOf form.fileHeaderPtrType) [("json", "files")])
           [{| Filename := "a.txt"; Size := 13 |}; {| Filename := "b.txt"; Size := 13 |}]
           ltac:(apply (bool_decide_unpack _); vm_compute; exact I)
           eq_refl eq_refl ltac:(vm_compute; reflexivity)
           ltac:(vm_compute; reflexivity))); [reflexivity|discriminate].
Defined.

(** ** X9: the merged multipart strategy *)

Lemma populate_Done_kind t settable value x :
  form.populate t settable value = Done x -> In (kindOf t) coercibleKinds.
Proof.
  unfold form.populate, coercibleKinds.
  destruct (kindOf t); simpl; try done; tauto.
Qed.

(** A field whose effective name is no key of the map keeps its datum. *)
Lemma bindEntries_keeps_field_without_key {A : Type}
    (coerce : type -> bool -> A -> outcome val) sched tagKey sf
    (src : gmap string (list A)) st i f :
  sf !! i = Some f ->
  src !! form.fieldName tagKey f = None ->
  (form.bindEntries coerce (form.buildFields tagKey sf) (range sched src) st).1 !! i
  = st !! i.
Proof.
  intros Hi Hnone. apply bindEntries_other.
  intros name values g Hin Hg Hslot.
  apply buildFields_some in Hg as (j & f' & Hj & Hname & ->). simpl in Hslot.
  subst j. rewrite Hj in Hi. injection Hi as ->.
  apply range_lookup in Hin. congruence.
Qed.

(** X9. [MixedMultipart]: [r.Form] holds the values of the query (and of a
    URL-encoded body) first and those of the multipart body last, so that a
    field that is no slice holds, after a successful call, the datum of the
    last value the multipart body has for its name, whatever the query holds
    for it. *)
Theorem mixed_multipart_body_value_wins
    (sched : Schedule) (vars : form.Vars) (r : Request) (sf : list StructField)
    (st st' : store) (i : nat) (f : StructField) (vals : Values) (files : Files)
    (ms : list string) (m : string) :
  NoDup (form.fieldName (form.fieldTag vars) <$> sf) ->
  length st = length sf ->
  sf !! i = Some f ->
  kindOf (Type_ f) ≠ reflect.Slice ->
  MultipartBody r (form.maxMemory vars) = inl (vals, files) ->
  vals !! form.fieldName (form.fieldTag vars) f = Some ms ->
  last ms = Some m ->
  form.UnpackWithOption sched vars r sf st form.MixedMultipart = (st', ok) ->
  exists x, form.populate (Type_ f) true m = Done x /\ st' !! i = Some x.
Proof.
  intros Hnd Hlen Hi Hk Hmb Hv Hlast.
  unfold form.UnpackWithOption, ParseMultipartForm. simpl.
  destruct (ParseForm r) as [p0 e0]. rewrite Hmb.
  destruct e0; [done|]. cbn [MultipartForm PostForm Form].
  destruct (form.unpack sched _ _ st) as [s1 [[]| |]] eqn:Hrun; try done.
  intros Hfiles.
  assert (Hform : exists l0, copyValues (Form p0) vals
                    !! form.fieldName (form.fieldTag vars) f = Some (l0 ++ ms)).
  { rewrite copyValues_lookup, Hv.
    destruct (Form p0 !! _) as [a|]; [by exists a|by exists []]. }
  destruct Hform as [l0 Hform].
  unfold form.unpack in Hrun.
  eapply bindEntries_field in Hrun as (sa & sb & Hall & _ & Hlena & Hs1); [|done..].
  apply (bindAll_scalar _ _ _ _ m) in Hall as (x & Hx & Hsb); simpl; try done.
  2:{ rewrite Hlena, Hlen. by eapply lookup_lt_Some. }
  2:{ apply last_Some in Hlast as [ms' ->]. by rewrite app_assoc, last_snoc. }
  simpl in Hx, Hsb. exists x. split; [by eapply populate_Done_settable|].
  rewrite <- Hsb, <- Hs1.
  destruct (files !! form.fieldName (form.fieldTag vars) f) as [parts|] eqn:Hparts.
  - unfold form.unpackMultipart in Hfiles.
    eapply bindEntries_field in Hfiles as (sc & sd & Hparts' & Hsc & _ & Hsd); [|done..].
    rewrite Hsd, <- Hsc. destruct parts as [|part parts]; [by injection Hparts' as <-|].
    exfalso. simpl in Hparts'.
    apply populate_Done_kind in Hx.
    destruct (form.populatePart (Type_ f) _ part) as [y| |] eqn:Hp.
    + apply populatePart_Done in Hp as [Ht _]. rewrite Ht in Hx.
      unfold coercibleKinds in Hx. simpl in Hx. intuition discriminate.
    + by destruct (kindOf (Type_ f)).
    + by destruct (kindOf (Type_ f)).
  - pose proof (bindEntries_keeps_field_without_key form.populatePart sched
                  (form.fieldTag vars) sf files s1 i f Hi Hparts) as Hkeep.
    unfold form.unpackMultipart in Hfiles. rewrite Hfiles in Hkeep. done.
Qed.

Lemma mixed_multipart_body_value_wins_witness :
  exists x,
    form.populate (Basic Tstring) true "from the body" = Done x
    /\ [VString "from the body"] !! 0%nat = Some x.
Proof.
  apply (mixed_multipart_body_value_wins ascending form.initialVars
           (sample.upload [("hello", ["from the query"])]
                          [("hello", ["from the body"])] [])
           [sample.field "Val" (Basic Tstring) [("json", "hello")]]
           [VString ""] _ 0
           (sample.field "Val" (Basic Tstring) [("json", "hello")])
           (list_to_map [("hello", ["from the body"])]) (list_to_map [])
           ["from the body"] "from the body").
  - apply (bool_decide_unpack _). vm_compute. exact I.
  - reflexivity.
  - reflexivity.
  - discriminate.
  - reflexivity.
  - vm_compute. reflexivity.
  - reflexivity.
  - vm_compute. reflexivity.
Defined.

(** ** X10, X11: what a strategy reads *)

(** X10. The strategies that bind from one source read that source only.
    Under [Body], [Multipart] and any option that is none of the five
    constants, the values of the URL query take no part: two requests that
    differ in them only give the same outcome. Under [Query], the values of
    the bodies take no part. (The errors of the parsers do: see X11.) *)
Theorem single_source_strategies_read_their_source_only
    (sched : Schedule) (vars : form.Vars) (r r' : Request) (sf : list StructField)
    (st : store) (option : form.Option) :
  Method r' = Method r ->
  URLQueryErr r' = URLQueryErr r ->
  PostBodyErr r' = PostBodyErr r ->
  (option ≠ form.Query -> option ≠ form.Mixed -> option ≠ form.MixedMultipart ->
   PostBody r' = PostBody r ->
   MultipartBody r' = MultipartBody r ->
   form.UnpackWithOption sched vars r' sf st option
   = form.UnpackWithOption sched vars r sf st option)
  /\ (option = form.Query ->
      URLQuery r' = URLQuery r ->
      form.UnpackWithOption sched vars r' sf st option
      = form.UnpackWithOption sched vars r sf st option).
Proof.
  intros Hm Hqe Hbe. split.
  - intros Hq%Z.eqb_neq Hx%Z.eqb_neq Hxm%Z.eqb_neq Hb Hmb.
    unfold form.UnpackWithOption, ParseMultipartForm, ParseForm.
    rewrite Hm, Hqe, Hbe, Hb, Hmb, Hq, Hx, Hxm, orb_false_r.
    destruct (option =? form.Multipart).
    + destruct (oneOf (Method r) _); simpl;
        destruct (MultipartBody r (form.maxMemory vars)) as [[vals files]|err];
        simpl; reflexivity.
    + destruct (oneOf (Method r) _); simpl; reflexivity.
  - intros -> Hq.
    unfold form.UnpackWithOption, ParseForm.
    rewrite Hm, Hqe, Hbe, Hq.
    destruct (oneOf (Method r) [MethodPost; MethodPut; MethodPatch]); simpl.
    + by destruct (PostBodyErr r), (URLQueryErr r).
    + reflexivity.
Qed.

(** The test "POST body encode": [?default=888] in the URL changes nothing
    under [Body]. *)
Lemma single_source_strategies_read_their_source_only_witness :
  form.UnpackWithOption ascending form.initialVars
    (sample.request "POST" [("default", ["888"])] [("q", ["golang"])])
    sample.Params sample.withDefault form.Body
  = form.UnpackWithOption ascending form.initialVars
      (sample.request "POST" [] [("q", ["golang"])])
      sample.Params sample.withDefault form.Body.
Proof.
  apply (proj1 (single_source_strategies_read_their_source_only ascending
           form.initialVars
           (sample.request "POST" [] [("q", ["golang"])])
           (sample.request "POST" [("default", ["888"])] [("q", ["golang"])])
           sample.Params sample.withDefault form.Body eq_refl eq_refl eq_refl));
    try reflexivity; discriminate.
Defined.

(** X11. A malformed URL query makes every strategy fail before anything
    is bound, the strategies that do not bind from the query included: the
    struct keeps its data and an error is returned. On a request whose body
    is not read (a method other than POST, PUT and PATCH), the single-source
    and merged strategies return the error of the query parser itself. *)
Theorem malformed_query_fails_every_strategy
    (sched : Schedule) (vars : form.Vars) (r : Request) (sf : list StructField)
    (st : store) (option : form.Option) (e : error) :
  URLQueryErr r = Some e ->
  (exists e', form.UnpackWithOption sched vars r sf st option = (st, Failed e'))
  /\ (oneOf (Method r) ["POST"; "PUT"; "PATCH"] = false ->
      option ≠ form.Multipart -> option ≠ form.MixedMultipart ->
      form.UnpackWithOption sched vars r sf st option = (st, Failed e)).
Proof.
  intros Hqe. split.
  - unfold form.UnpackWithOption, ParseMultipartForm, ParseForm. rewrite Hqe.
    destruct (_ || _);
      destruct (oneOf (Method r) _); simpl;
      try destruct (MultipartBody r (form.maxMemory vars)) as [[vals files]|err];
      simpl; try destruct (PostBodyErr r); eauto.
  - intros Hmeth Hm%Z.eqb_neq Hxm%Z.eqb_neq.
    unfold form.UnpackWithOption, ParseForm. rewrite Hm, Hxm. cbn [orb].
    change (oneOf (Method r) [MethodPost; MethodPut; MethodPatch])
      with (oneOf (Method r) ["POST"; "PUT"; "PATCH"]).
    by rewrite Hmeth, Hqe.
Qed.

Lemma malformed_query_fails_every_strategy_witness :
  exists e',
    form.UnpackWithOption ascending form.initialVars
      {| Method := "POST"; ContentType := "application/x-www-form-urlencoded";
         URLQuery := {["q" := ["golang"]]};
         URLQueryErr := Some (External "invalid semicolon separator in query");
         PostBody := {["int" := ["233"]]}; PostBodyErr := None;
         MultipartBody := fun _ => inr (External "not multipart");
         Body := inl "" |}
      sample.Params sample.withDefault form.Body
    = (sample.withDefault, Failed e').
Proof.
  apply (malformed_query_fails_every_strategy ascending form.initialVars _
           sample.Params sample.withDefault form.Body
           (External "invalid semicolon separator in query")).
  reflexivity.
Defined.

(** ** X12, X13: the dispatcher on methods that carry a body *)

Lemma oneOf_false (str : string) (l : list string) :
  ~ In str l -> oneOf str l = false.
Proof.
  intros Hnot. destruct (oneOf str l) eqn:Hone; [|done].
  unfold oneOf in Hone. apply existsb_exists in Hone as (x & Hx & ->%String.eqb_eq).
  done.
Qed.

(** X12. On a method that carries a body, every error of [Unmarshal] names
    its stage: it is "parse request media type: cause" (nothing bound),
    "unsupported content type: declared type" (nothing bound), or "parse
    request body as type: cause" for one of the four recognized media
    types. *)
Theorem Unmarshal_errors_name_their_stage
    (sched : Schedule) (vars : form.Vars) (dec : reqconv.Decoders) (r : Request)
    (sf : list StructField) (st st' : store) (e : error) :
  ~ In (Method r) ["GET"; "DELETE"; "HEAD"; "TRACE"] ->
  reqconv.Unmarshal sched vars dec r sf st = (st', Failed e) ->
  (exists cause,
     e = Errorf "parse request media type: %v" [AError cause] /\ st' = st)
  \/ (e = Errorf "unsupported content type: %s"
            [AString (if String.eqb (ContentType r) ""
                      then "application/octet-stream" else ContentType r)]
      /\ st' = st)
  \/ (exists mediaType cause,
        In mediaType recognizedTypes
        /\ e = Errorf "parse request body as %s: %v" [AString mediaType; AError cause]).
Proof.
  intros Hm%oneOf_false. unfold reqconv.Unmarshal, reqconv.declaredType.
  change (oneOf (Method r) reqconv.noBodyMethods)
    with (oneOf (Method r) ["GET"; "DELETE"; "HEAD"; "TRACE"]).
  rewrite Hm.
  destruct (reqconv.ParseMediaType dec _) as [mediaType [err|]].
  { intros [= <- <-]. left. by exists err. }
  assert (Hwrap : forall res : store * result,
    match res with
    | (s, Failed e0) =>
      (s, Failed (Errorf "parse request body as %s: %v" [AString mediaType; AError e0]))
    | other => other
    end = (st', Failed e) ->
    exists cause,
      e = Errorf "parse request body as %s: %v" [AString mediaType; AError cause]).
  { intros [s [[]|e0|]]; intros [= _ <-]. by exists e0. }
  unfold recognizedTypes.
  destruct (String.eqb_spec mediaType "application/json") as [Hj|_].
  { intros [cause ->]%Hwrap. right; right. exists mediaType, cause.
    split; [rewrite Hj; simpl; tauto|done]. }
  destruct (String.eqb_spec mediaType "application/xml") as [Hx|_].
  { intros [cause ->]%Hwrap. right; right. exists mediaType, cause.
    split; [rewrite Hx; simpl; tauto|done]. }
  destruct (String.eqb_spec mediaType "multipart/form-data") as [Hmp|_].
  { intros [cause ->]%Hwrap. right; right. exists mediaType, cause.
    split; [rewrite Hmp; simpl; tauto|done]. }
  destruct (String.eqb_spec mediaType "application/x-www-form-urlencoded") as [Hu|_].
  { intros [cause ->]%Hwrap. right; right. exists mediaType, cause.
    split; [rewrite Hu; simpl; tauto|done]. }
  intros [= <- <-]. right; left. done.
Qed.

(** A POST of a form whose [int] is malformed. *)
Lemma Unmarshal_errors_name_their_stage_witness :
  exists mediaType cause,
    In mediaType recognizedTypes
    /\ Errorf "parse request body as %s: %v"
         [AString "application/x-www-form-urlencoded";
          AError (Errorf "%s: %v"
            [AString "int"; AError (NumErr (strconv.syntaxError "ParseInt" "x"))])]
       = Errorf "parse request body as %s: %v" [AString mediaType; AError cause].
Proof.
  destruct (Unmarshal_errors_name_their_stage ascending form.initialVars
              sample.decoders (sample.request "POST" [] [("int", ["x"])])
              sample.Params sample.withDefault sample.withDefault
              (Errorf "parse request body as %s: %v"
                 [AString "application/x-www-form-urlencoded";
                  AError (Errorf "%s: %v"
                    [AString "int";
                     AError (NumErr (strconv.syntaxError "ParseInt" "x"))])]))
    as [(cause & Hc & _)|[[Hc _]|Hc]].
  - simpl. intros [H|[H|[H|[H|[]]]]]; discriminate.
  - vm_compute. reflexivity.
  - discriminate.
  - discriminate.
  - exact Hc.
Defined.

(** X13. A body declared as JSON or XML bypasses the form binder: the
    outcome of [Unmarshal] is that of reading the body and of the decoder,
    its error wrapped with the media type. The tag key, the memory
    threshold, the query, the form views of the body and the order of the
    maps take no part. *)
Theorem structured_bodies_bypass_the_binder
    (sched : Schedule) (vars : form.Vars) (dec : reqconv.Decoders) (r : Request)
    (sf : list StructField) (st : store) (mediaType : string) :
  ~ In (Method r) ["GET"; "DELETE"; "HEAD"; "TRACE"] ->
  reqconv.ParseMediaType dec
    (if String.eqb (ContentType r) "" then "application/octet-stream" else ContentType r)
  = (mediaType, None) ->
  mediaType = "application/json" \/ mediaType = "application/xml" ->
  reqconv.Unmarshal sched vars dec r sf st
  = match Body r with
    | inr err =>
      (st, Failed (Errorf "parse request body as %s: %v" [AString mediaType; AError err]))
    | inl b =>
      match (if String.eqb mediaType "application/json"
             then reqconv.jsonUnmarshal dec else reqconv.xmlUnmarshal dec) b sf st with
      | (st', Some err) =>
        (st', Failed (Errorf "parse request body as %s: %v"
                        [AString mediaType; AError err]))
      | (st', None) => (st', ok)
      end
    end
  /\ (forall (sched' : Schedule) (vars' : form.Vars) (r' : Request),
        Method r' = Method r -> ContentType r' = ContentType r -> Body r' = Body r ->
        reqconv.Unmarshal sched' vars' dec r' sf st
        = reqconv.Unmarshal sched vars dec r sf st).
Proof.
  intros Hm%oneOf_false Hparse Hmt.
  assert (Hrun : forall sched0 vars0 r0,
    Method r0 = Method r -> ContentType r0 = ContentType r -> Body r0 = Body r ->
    reqconv.Unmarshal sched0 vars0 dec r0 sf st
    = match Body r with
      | inr err =>
        (st, Failed (Errorf "parse request body as %s: %v"
                       [AString mediaType; AError err]))
      | inl b =>
        match (if String.eqb mediaType "application/json"
               then reqconv.jsonUnmarshal dec else reqconv.xmlUnmarshal dec) b sf st with
        | (st', Some err) =>
          (st', Failed (Errorf "parse request body as %s: %v"
                          [AString mediaType; AError err]))
        | (st', None) => (st', ok)
        end
      end).
  { intros sched0 vars0 r0 Hmeth Hct Hbody.
    unfold reqconv.Unmarshal, reqconv.declaredType, reqconv.unmarshal.
    change (oneOf (Method r0) reqconv.noBodyMethods)
      with (oneOf (Method r0) ["GET"; "DELETE"; "HEAD"; "TRACE"]).
    rewrite Hmeth, Hm, Hct, Hparse, Hbody.
    destruct Hmt as [-> | ->]; simpl; destruct (Body r) as [b|err]; try reflexivity.
    - by destruct (reqconv.jsonUnmarshal dec b sf st) as [s [err|]].
    - by destruct (reqconv.xmlUnmarshal dec b sf st) as [s [err|]]. }
  split; [by apply Hrun|].
  intros sched' vars' r' Hmeth Hct Hbody.
  by rewrite (Hrun sched' vars' r' Hmeth Hct Hbody), (Hrun sched vars r).
Qed.

(** The test "POST json with default value", on the stand-in decoder. *)
Lemma structured_bodies_bypass_the_binder_witness :
  reqconv.Unmarshal descending {| form.maxMemory := 0; form.fieldTag := "form" |}
    sample.decoders
    {| Method := "POST"; ContentType := "application/json";
       URLQuery := {["default" := ["888"]]}; URLQueryErr := None;
       PostBody := ∅; PostBodyErr := None;
       MultipartBody := fun _ => inr (External "not multipart");
       Body := inl "{}" |}
    sample.Params sample.withDefault
  = reqconv.Unmarshal ascending form.initialVars sample.decoders
      {| Method := "POST"; ContentType := "application/json";
         URLQuery := ∅; URLQueryErr := None;
         PostBody := ∅; PostBodyErr := None;
         MultipartBody := fun _ => inr (External "not multipart");
         Body := inl "{}" |}
      sample.Params sample.withDefault.
Proof.
  apply (proj2 (structured_bodies_bypass_the_binder ascending form.initialVars
           sample.decoders
           {| Method := "POST"; ContentType := "application/json";
              URLQuery := ∅; URLQueryErr := None;
              PostBody := ∅; PostBodyErr := None;
              MultipartBody := fun _ => inr (External "not multipart");
              Body := inl "{}" |}
           sample.Params sample.withDefault "application/json"
           ltac:(simpl; intros [H|[H|[H|[H|[]]]]]; discriminate)
           eq_refl ltac:(by left)));
    reflexivity.
Defined.

(** ** X14: the values before a failure *)

Lemma bindAll_app {A : Type} (coerce : type -> bool -> A -> outcome val)
    name f vs1 vs2 st :
  form.bindAll coerce name f (vs1 ++ vs2) st =
  match form.bindAll coerce name f vs1 st with
  | (s, Done _) => form.bindAll coerce name f vs2 s
  | stop => stop
  end.
Proof.
  revert st; induction vs1 as [|v vs1 IH]; intros st; simpl; [done|].
  destruct (kindOf (typ f));
    try (destruct (coerce (typ f) (canSet f) v); [apply IH|done..]).
  destruct (Elem (typ f)) as [et|]; [|done].
  destruct (coerce et true v); [|done..].
  destruct (canSet f); [apply IH|done].
Qed.

Lemma range_singleton (sched : Schedule) {A : Type} (k : string) (x : A) :
  range sched ({[k := x]} : gmap string A) = [(k, x)].
Proof.
  apply Permutation_singleton_r.
  by rewrite (range_perm sched), map_to_list_singleton.
Qed.

(** X14. The values of a key are bound from left to right and the first
    one that fails stops the call: the struct is left as the values before
    it leave it, the failing value and the values after it write nothing,
    and the error is that of the failing value under the key. *)
Theorem values_before_a_failure_stay_bound
    (sched : Schedule) (tagKey : string) (sf : list StructField) (st s1 : store)
    (key : string) (v : Value) (vs1 vs2 : list string) (bad : string)
    (cause : error) :
  form.buildFields tagKey sf !! key = Some v ->
  form.unpack sched (form.buildFields tagKey sf) {[key := vs1]} st = (s1, ok) ->
  coerceFor form.populate v bad = Failed cause ->
  form.unpack sched (form.buildFields tagKey sf) {[key := vs1 ++ bad :: vs2]} st
  = (s1, Failed (Errorf "%s: %v" [AString key; AError cause])).
Proof.
  unfold form.unpack. rewrite !range_singleton. simpl. intros -> Hrun Hbad.
  rewrite bindAll_app.
  destruct (form.bindAll form.populate key v vs1 st) as [s [[]| |]]; try done.
  injection Hrun as ->. simpl. unfold coerceFor in Hbad.
  destruct (kindOf (typ v)); try (by rewrite Hbad).
  destruct (Elem (typ v)) as [et|]; [by rewrite Hbad|done].
Qed.

(** [array=1&array=2&array=x&array=4]: 1 and 2 are appended, 4 is not. *)
Lemma values_before_a_failure_stay_bound_witness :
  form.unpack ascending (form.buildFields "json" sample.Params)
    {["array" := ["1"; "2"] ++ "x" :: ["4"]]} sample.withDefault
  = ([VString ""; VInt 0; VFloat (S754_zero false); VBool false;
      VSlice [VInt 1; VInt 2]; VString "2333"],
     Failed (Errorf "%s: %v"
       [AString "array"; AError (NumErr (strconv.syntaxError "ParseInt" "x"))])).
Proof.
  apply (values_before_a_failure_stay_bound ascending "json" sample.Params
           sample.withDefault _ "array"
           (Field 4 (sample.field "Array" (SliceOf (Basic Tint)) [("json", "array")])));
    vm_compute; reflexivity.
Defined.

(** ** X15: what no strategy touches *)

(** X15. Under every strategy and however the call ends,
    [UnpackWithOption] keeps the number of data of the struct, and a field
    whose effective name is a key of none of the sources of the request (the
    query, the URL-encoded body, the values and the file parts of the
    multipart body) keeps its datum. *)
Theorem UnpackWithOption_keeps_fields_no_source_names
    (sched : Schedule) (vars : form.Vars) (r : Request) (sf : list StructField)
    (st : store) (option : form.Option) :
  length (form.UnpackWithOption sched vars r sf st option).1 = length st
  /\ (forall i f,
        sf !! i = Some f ->
        URLQuery r !! form.fieldName (form.fieldTag vars) f = None ->
        PostBody r !! form.fieldName (form.fieldTag vars) f = None ->
        (forall vals files,
           MultipartBody r (form.maxMemory vars) = inl (vals, files) ->
           vals !! form.fieldName (form.fieldTag vars) f = None
           /\ files !! form.fieldName (form.fieldTag vars) f = None) ->
        (form.UnpackWithOption sched vars r sf st option).1 !! i = st !! i).
Proof.
  set (fields := form.buildFields (form.fieldTag vars) sf).
  assert (Hthen : forall (src : Values) (mf : Datatypes.option Files),
    let res :=
      (let bound := form.unpack sched fields src st in
       match bound with
       | (s1, Done _) =>
         match mf with
         | Some files => form.unpackMultipart sched fields files s1
         | None => (s1, Panicked)
         end
       | stop => stop
       end) in
    length res.1 = length st
    /\ (forall i f, sf !! i = Some f ->
          src !! form.fieldName (form.fieldTag vars) f = None ->
          (forall files, mf = Some files ->
             files !! form.fieldName (form.fieldTag vars) f = None) ->
          res.1 !! i = st !! i)).
  { intros src mf. cbv zeta.
    pose proof (bindEntries_length form.populate fields (range sched src) st) as Hl.
    pose proof (fun i f Hi Hn => bindEntries_keeps_field_without_key form.populate
                  sched (form.fieldTag vars) sf src st i f Hi Hn) as Hk.
    fold fields in Hk. unfold form.unpack.
    destruct (form.bindEntries form.populate fields (range sched src) st)
      as [s1 [[]| |]]; simpl in Hl, Hk;
      [|split; [done|intros i f Hi Hn _; by apply (Hk i f)]..].
    destruct mf as [files|]; [|split; [done|intros i f Hi Hn _; by apply (Hk i f)]].
    unfold form.unpackMultipart. split.
    - by rewrite bindEntries_length.
    - intros i f Hi Hn Hf. rewrite <- (Hk i f) by done.
      apply (bindEntries_keeps_field_without_key form.populatePart sched
               (form.fieldTag vars) sf files s1 i f); [done|by apply Hf]. }
  assert (Hone : forall src : Values,
    length (form.unpack sched fields src st).1 = length st
    /\ (forall i f, sf !! i = Some f ->
          src !! form.fieldName (form.fieldTag vars) f = None ->
          (form.unpack sched fields src st).1 !! i = st !! i)).
  { intros src. split; [apply bindEntries_length|].
    intros i f Hi Hn.
    by apply (bindEntries_keeps_field_without_key form.populate sched
                (form.fieldTag vars) sf src st i f). }
  assert (Hparse : forall k,
    URLQuery r !! k = None -> PostBody r !! k = None ->
    PostForm (ParseForm r).1 !! k = None /\ Form (ParseForm r).1 !! k = None).
  { intros k Hq Hb. rewrite ParseForm_Form, Hq.
    assert (PostForm (ParseForm r).1 !! k = None) as ->; [|done].
    unfold ParseForm. by destruct (oneOf _ _). }
  unfold form.UnpackWithOption. fold fields.
  destruct ((option =? form.Multipart) || (option =? form.MixedMultipart)) eqn:Hmp.
  - unfold ParseMultipartForm.
    pose proof Hparse as Hparse'.
    destruct (ParseForm r) as [p0 e0]. simpl in Hparse'.
    destruct (MultipartBody r (form.maxMemory vars)) as [[vals files]|err] eqn:Hmb;
      [|done].
    destruct e0; [done|]. cbn [MultipartForm PostForm Form].
    assert (Hmerge : forall i f, sf !! i = Some f ->
      URLQuery r !! form.fieldName (form.fieldTag vars) f = None ->
      PostBody r !! form.fieldName (form.fieldTag vars) f = None ->
      (forall vals0 files0,
         @inl (Values * Files) error (vals, files) = inl (vals0, files0) ->
         vals0 !! form.fieldName (form.fieldTag vars) f = None
         /\ files0 !! form.fieldName (form.fieldTag vars) f = None) ->
      copyValues (PostForm p0) vals !! form.fieldName (form.fieldTag vars) f = None
      /\ copyValues (Form p0) vals !! form.fieldName (form.fieldTag vars) f = None
      /\ files !! form.fieldName (form.fieldTag vars) f = None).
    { intros i f Hi Hq Hb Hmf. destruct (Hmf vals files eq_refl) as [Hv Hf].
      destruct (Hparse' _ Hq Hb) as [Hpf Hfo].
      by rewrite !copyValues_lookup, Hpf, Hfo, Hv. }
    destruct (option =? form.Query).
    { destruct (Hone (URLQuery r)) as [Hl Hk]. split; [done|].
      intros i f Hi Hq _ _. by apply (Hk i f). }
    destruct (option =? form.Mixed).
    { destruct (Hone (copyValues (Form p0) vals)) as [Hl Hk]. split; [done|].
      intros i f Hi Hq Hb Hmf. apply (Hk i f Hi).
      by destruct (Hmerge i f Hi Hq Hb Hmf) as (_ & ? & _). }
    destruct (option =? form.Multipart).
    { destruct (Hthen (copyValues (PostForm p0) vals) (Some files)) as [Hl Hk].
      split; [done|]. intros i f Hi Hq Hb Hmf.
      destruct (Hmerge i f Hi Hq Hb Hmf) as (? & ? & ?).
      apply (Hk i f Hi); [done|]. by intros ? [= <-]. }
    destruct (option =? form.MixedMultipart).
    { destruct (Hthen (copyValues (Form p0) vals) (Some files)) as [Hl Hk].
      split; [done|]. intros i f Hi Hq Hb Hmf.
      destruct (Hmerge i f Hi Hq Hb Hmf) as (? & ? & ?).
      apply (Hk i f Hi); [done|]. by intros ? [= <-]. }
    destruct (Hone (copyValues (PostForm p0) vals)) as [Hl Hk]. split; [done|].
    intros i f Hi Hq Hb Hmf. apply (Hk i f Hi).
    by destruct (Hmerge i f Hi Hq Hb Hmf) as (? & _).
  - apply orb_false_iff in Hmp as [-> ->].
    pose proof Hparse as Hparse'.
    destruct (ParseForm r) as [p [e|]]; [done|]. simpl in Hparse'.
    destruct (option =? form.Query).
    { destruct (Hone (URLQuery r)) as [Hl Hk]. split; [done|].
      intros i f Hi Hq _ _. by apply (Hk i f). }
    destruct (option =? form.Mixed).
    { destruct (Hone (Form p)) as [Hl Hk]. split; [done|].
      intros i f Hi Hq Hb _. apply (Hk i f Hi). by apply Hparse'. }
    destruct (Hone (PostForm p)) as [Hl Hk]. split; [done|].
    intros i f Hi Hq Hb _. apply (Hk i f Hi). by apply Hparse'.
Qed.

(** An upload with [hello] and a file: [Default] is named by no source. *)
Lemma UnpackWithOption_keeps_fields_no_source_names_witness :
  (form.UnpackWithOption ascending form.initialVars
     (sample.upload [("q", ["golang"])] [("int", ["1"])]
        [("file", [{| Filename := "hello.txt"; Size := 13 |}])])
     sample.Params sample.withDefault form.MixedMultipart).1 !! 5%nat
  = sample.withDefault !! 5%nat.
Proof.
  apply (proj2 (UnpackWithOption_keeps_fields_no_source_names ascending
           form.initialVars
           (sample.upload [("q", ["golang"])] [("int", ["1"])]
              [("file", [{| Filename := "hello.txt"; Size := 13 |}])])
           sample.Params sample.withDefault form.MixedMultipart) 5%nat
           (sample.field "Default" (Basic Tstring) [("json", "default")])).
  - reflexivity.
  - vm_compute. reflexivity.
  - vm_compute. reflexivity.
  - intros vals files [= <- <-]. split; vm_compute; reflexivity.
Defined.

(** ** X16: binding twice *)

Section again.

Context {A : Type} (coerce : type -> bool -> A -> outcome val).

(** On a field that is no slice, the loop does not read the store: when it
    ends well on one store it ends well on every store, and all it does is to
    write the datum of the last value, if there is a value. *)
Lemma bindAll_scalar_any_store name f values st s :
  kindOf (typ f) ≠ reflect.Slice ->
  form.bindAll coerce name f values st = (s, ok) ->
  exists w : Datatypes.option val,
    forall st2,
      form.bindAll coerce name f values st2
      = (match w with Some x => <[slot f := x]> st2 | None => st2 end, ok).
Proof.
  intros Hk. revert st; induction values as [|v values IH]; intros st Hrun.
  - by exists None.
  - simpl in Hrun.
    assert (Hstep : exists x, coerce (typ f) (canSet f) v = Done x
      /\ form.bindAll coerce name f values (<[slot f := x]> st) = (s, ok)).
    { destruct (kindOf (typ f)); try done;
        (destruct (coerce (typ f) (canSet f) v) as [x| |]; [by exists x|done..]). }
    destruct Hstep as (x & Hx & Hrest).
    destruct (IH _ Hrest) as [w Hw].
    exists (Some (default x w)). intros st2. simpl.
    assert (Hgo : form.bindAll coerce name f values (<[slot f := x]> st2)
                  = (<[slot f := default x w]> st2, ok)).
    { rewrite Hw. destruct w as [y|]; simpl; [|done].
      by rewrite list_insert_insert_eq. }
    destruct (kindOf (typ f)); try done; by rewrite Hx.
Qed.

(** A second run over the same entries changes nothing, when no field of
    the map is a slice. *)
Lemma bindEntries_again fields entries st s1 :
  (forall n n' f f',
     fields !! n = Some f -> fields !! n' = Some f' -> slot f = slot f' -> n = n') ->
  (forall n f, fields !! n = Some f -> kindOf (typ f) ≠ reflect.Slice) ->
  NoDup entries.*1 ->
  form.bindEntries coerce fields entries st = (s1, ok) ->
  form.bindEntries coerce fields entries s1 = (s1, ok).
Proof.
  intros Hinj Hscalar. revert st.
  induction entries as [|[name values] entries IH]; intros st Hnd Hrun; [done|].
  rewrite fmap_cons in Hnd. apply NoDup_cons in Hnd as [Hfresh Hnd].
  simpl in *. destruct (fields !! name) as [f|] eqn:Hf; [|by eapply IH].
  destruct (form.bindAll coerce name f values st) as [sa [[]| |]] eqn:Hall; try done.
  destruct (bindAll_scalar_any_store name f values st sa (Hscalar name f Hf) Hall)
    as [w Hw].
  assert (Hkeep : s1 !! slot f = sa !! slot f).
  { pose proof (bindEntries_other coerce fields entries sa (slot f)) as Ho.
    rewrite Hrun in Ho. apply Ho. intros n vs g Hin Hg Hslot.
    apply Hfresh. assert (n = name) as <- by (by eapply Hinj).
    apply list_elem_of_fmap. by exists (n, vs). }
  assert (Hsame : match w with Some x => <[slot f := x]> s1 | None => s1 end = s1).
  { destruct w as [x|]; [|done].
    rewrite Hw in Hall. injection Hall as <-.
    destruct (decide (slot f < length st)%nat) as [Hlt|Hge].
    - apply list_insert_id. by rewrite Hkeep, list_lookup_insert_eq.
    - apply list_insert_ge.
      pose proof (bindEntries_length coerce fields entries (<[slot f := x]> st)) as Hl.
      rewrite Hrun, length_insert in Hl. simpl in Hl. lia. }
  rewrite Hw, Hsame. by eapply IH.
Qed.

End again.

(** X16. Over a struct without slice fields, a second [unpack] of the same
    value source after a successful one returns [nil] again and changes
    nothing: scalar fields are overwritten with the same data. *)
Theorem unpack_twice_without_slices
    (sched : Schedule) (tagKey : string) (sf : list StructField) (src : Values)
    (st s1 : store) :
  Forall (fun f => kindOf (Type_ f) ≠ reflect.Slice) sf ->
  form.unpack sched (form.buildFields tagKey sf) src st = (s1, ok) ->
  form.unpack sched (form.buildFields tagKey sf) src s1 = (s1, ok).
Proof.
  intros Hscalar. unfold form.unpack. apply bindEntries_again.
  - apply buildFields_names_of_slots.
  - intros n v (i & f & Hi & _ & ->)%buildFields_some. simpl.
    rewrite Forall_forall in Hscalar. apply Hscalar, list_elem_of_lookup. eauto.
  - apply range_NoDup.
Qed.

Lemma unpack_twice_without_slices_witness :
  form.unpack ascending (form.buildFields "json" sample.AB)
    (<["a" := ["x"; "hello"]]> {["b" := ["233"]]}) [VString "hello"; VInt 233]
  = ([VString "hello"; VInt 233], ok).
Proof.
  apply (unpack_twice_without_slices ascending "json" sample.AB _ sample.oldAB).
  - repeat constructor; discriminate.
  - vm_compute. reflexivity.
Defined.

(** With a slice field the second call appends again. *)
Example unpack_twice_with_a_slice :
  form.unpack ascending (form.buildFields "json" sample.Params)
    {["array" := ["1"; "2"]]}
    (form.unpack ascending (form.buildFields "json" sample.Params)
       {["array" := ["1"; "2"]]} sample.withDefault).1
  = ([VString ""; VInt 0; VFloat (S754_zero false); VBool false;
      VSlice [VInt 1; VInt 2; VInt 1; VInt 2]; VString "2333"], ok).
Proof. vm_compute. reflexivity. Qed.

(** ** X17: a slice under the merged strategy *)

(** X17. [Mixed]: a slice field whose name has values both in the posted
    body and in the URL query ends, after a successful call, with the
    elements it had, then one element for each value of the body, then one
    for each value of the query, each in its order. *)
Theorem mixed_slice_takes_body_then_query
    (sched : Schedule) (vars : form.Vars) (r : Request) (sf : list StructField)
    (st st' : store) (i : nat) (f : StructField) (et : type) (bs qs : list string) :
  NoDup (form.fieldName (form.fieldTag vars) <$> sf) ->
  length st = length sf ->
  sf !! i = Some f ->
  kindOf (Type_ f) = reflect.Slice ->
  Elem (Type_ f) = Some et ->
  PostForm (ParseForm r).1 !! form.fieldName (form.fieldTag vars) f = Some bs ->
  URLQuery r !! form.fieldName (form.fieldTag vars) f = Some qs ->
  form.UnpackWithOption sched vars r sf st form.Mixed = (st', ok) ->
  exists fromBody fromQuery,
    Forall2 (fun v e => form.populate et true v = Done e) bs fromBody
    /\ Forall2 (fun v e => form.populate et true v = Done e) qs fromQuery
    /\ sliceElems (st' !! i) = sliceElems (st !! i) ++ fromBody ++ fromQuery.
Proof.
  intros Hnd Hlen Hi Hk He Hb Hq Hrun%UnpackWithOption_Mixed.
  unfold form.unpack in Hrun.
  eapply bindEntries_field in Hrun as (s1 & s2 & Hall & Hs1 & Hlen1 & Hst'); [|done|done|].
  2:{ rewrite ParseForm_Form, Hb, Hq. reflexivity. }
  apply (bindAll_slice _ _ _ et) in Hall as (elems & Hco & Hs2 & _); simpl; try done.
  2:{ rewrite Hlen1, Hlen. by eapply lookup_lt_Some. }
  apply Forall2_app_inv_l in Hco as (fromBody & fromQuery & Hfb & Hfq & ->).
  exists fromBody, fromQuery. split_and!; [done|done|].
  simpl in Hs2. by rewrite Hst', Hs2, Hs1.
Qed.

Lemma mixed_slice_takes_body_then_query_witness :
  exists fromBody fromQuery,
    Forall2 (fun v e => form.populate (Basic Tint) true v = Done e) ["1"; "2"] fromBody
    /\ Forall2 (fun v e => form.populate (Basic Tint) true v = Done e) ["3"] fromQuery
    /\ sliceElems ([VString ""; VInt 0; VFloat (S754_zero false); VBool false;
                    VSlice [VInt 1; VInt 2; VInt 3]; VString "2333"] !! 4%nat)
       = sliceElems (sample.withDefault !! 4%nat) ++ fromBody ++ fromQuery.
Proof.
  apply (mixed_slice_takes_body_then_query ascending form.initialVars
           (sample.request "POST" [("array", ["3"])] [("array", ["1"; "2"])])
           sample.Params sample.withDefault _ 4
           (sample.field "Array" (SliceOf (Basic Tint)) [("json", "array")])
           (Basic Tint) ["1"; "2"] ["3"]).
  - apply (bool_decide_unpack _). vm_compute. exact I.
  - reflexivity.
  - reflexivity.
  - reflexivity.
  - reflexivity.
  - vm_compute. reflexivity.
  - vm_compute. reflexivity.
  - vm_compute. reflexivity.
Defined.

(** ** X18: the map of fields *)

(** X18. The map of fields is keyed by effective names: whatever it holds
    under a name is a field of the struct with that effective name, at its
    index; and when the effective names are pairwise distinct, every field
    is found under its own name. *)
Theorem fields_map_holds_each_field_under_its_name
    (tagKey : string) (sf : list StructField) :
  (forall name v,
     form.buildFields tagKey sf !! name = Some v ->
     exists i f, sf !! i = Some f /\ form.fieldName tagKey f = name /\ v = Field i f)
  /\ (NoDup (form.fieldName tagKey <$> sf) ->
      forall i f, sf !! i = Some f ->
        form.buildFields tagKey sf !! form.fieldName tagKey f = Some (Field i f)).
Proof.
  split.
  - intros name v. apply buildFields_some.
  - intros Hnd i f. by apply buildFields_unique.
Qed.

Lemma fields_map_holds_each_field_under_its_name_witness :
  form.buildFields "json" sample.Params !! "array"
  = Some (Field 4 (sample.field "Array" (SliceOf (Basic Tint)) [("json", "array")])).
Proof.
  apply (proj2 (fields_map_holds_each_field_under_its_name "json" sample.Params)
           ltac:(apply (bool_decide_unpack _); vm_compute; exact I) 4%nat
           (sample.field "Array" (SliceOf (Basic Tint)) [("json", "array")])).
  reflexivity.
Defined.
